(** * Contextual workspace navigation for niri: a shallow embedding

    This development embeds [scripts/contextual_workspace_nav.py] and
    proves the properties of its decision protocol: the values the
    compositor reports (parsed JSON), the window identity and layout
    snapshot helpers, and [main] as a program over the three external
    effects it performs (subprocess runs, a short sleep, diagnostics),
    which returns an exit code or ends with an exception that nothing
    catches. *)

From Stdlib Require Import List ZArith NArith Bool String Ascii Lia.
From Stdlib Require Import Permutation Sorted SpecFloat.
From ExtLib Require Import Structures.Monad.
Import ListNotations.
Import MonadNotation.

Local Open Scope list_scope.
Local Open Scope Z_scope.

(** ** Python strings

    A [str] is a sequence of Unicode code points.  Equality, ordering
    (used by [sort_keys]), [startswith] and [in] all work code point by
    code point. *)

Module PyStr.

Definition pystr := list N.

(** A literal of the source, written in ASCII. *)
Definition u (s : string) : pystr :=
  map N_of_ascii (list_ascii_of_string s).

Fixpoint eqb (a b : pystr) : bool :=
  match a, b with
  | [], [] => true
  | x :: a', y :: b' => N.eqb x y && eqb a' b'
  | _, _ => false
  end.

(** [a <= b] in the lexicographic order of code points. *)
Fixpoint leb (a b : pystr) : bool :=
  match a, b with
  | [], _ => true
  | _ :: _, [] => false
  | x :: a', y :: b' =>
      if N.ltb x y then true
      else if N.eqb x y then leb a' b' else false
  end.

(** [s.startswith(prefix)] *)
Fixpoint startswith (s prefix : pystr) : bool :=
  match prefix, s with
  | [], _ => true
  | _ :: _, [] => false
  | p :: prefix', c :: s' => N.eqb c p && startswith s' prefix'
  end.

(** [sub in s] *)
Fixpoint contains (s sub : pystr) : bool :=
  startswith s sub
  || match s with
     | [] => false
     | _ :: s' => contains s' sub
     end.

(** [sep.join(parts)] *)
Fixpoint join (sep : pystr) (parts : list pystr) : pystr :=
  match parts with
  | [] => []
  | [p] => p
  | p :: rest => p ++ sep ++ join sep rest
  end.

Definition is_empty (s : pystr) : bool :=
  match s with [] => true | _ => false end.

End PyStr.

Import PyStr.

(** ** Values produced by [json.loads]

    A [dict] keeps its insertion order, so it is an association list
    whose keys are pairwise distinct ([json.loads] keeps the last of
    several equal keys). *)

#[local] Unset Elimination Schemes.
Inductive json : Type :=
| JNull                                   (* None *)
| JBool (b : bool)
| JInt (z : Z)
| JFloat (f : spec_float)
| JStr (s : pystr)
| JList (l : list json)
| JDict (d : list (pystr * json)).
#[local] Set Elimination Schemes.

(** Induction over a value and the values nested in it. *)
Section JsonInduction.

Variable P : json -> Prop.
Hypothesis HNull : P JNull.
Hypothesis HBool : forall b, P (JBool b).
Hypothesis HInt : forall z, P (JInt z).
Hypothesis HFloat : forall f, P (JFloat f).
Hypothesis HStr : forall s, P (JStr s).
Hypothesis HList : forall l, Forall P l -> P (JList l).
Hypothesis HDict : forall d, Forall (fun kv => P (snd kv)) d -> P (JDict d).

Fixpoint json_nested_ind (v : json) : P v :=
  match v with
  | JNull => HNull
  | JBool b => HBool b
  | JInt z => HInt z
  | JFloat f => HFloat f
  | JStr s => HStr s
  | JList l =>
      HList l
        ((fix go (l : list json) : Forall P l :=
            match l with
            | [] => Forall_nil P
            | x :: l' => Forall_cons x (json_nested_ind x) (go l')
            end) l)
  | JDict d =>
      HDict d
        ((fix go (d : list (pystr * json))
            : Forall (fun kv => P (snd kv)) d :=
            match d with
            | [] => Forall_nil _
            | kv :: d' =>
                Forall_cons kv (json_nested_ind (snd kv)) (go d')
            end) d)
  end.

End JsonInduction.

Definition Window := list (pystr * json).
Definition Identity := list (pystr * json).

(** Lookup in an association list keyed by strings. *)
Fixpoint lookup {V : Type} (k : pystr) (d : list (pystr * V)) : option V :=
  match d with
  | [] => None
  | (k', v) :: d' => if PyStr.eqb k' k then Some v else lookup k d'
  end.

(** [d.get(key)]: the value, or [None] when the key is absent. *)
Definition dict_get (key : pystr) (d : list (pystr * json)) : json :=
  match lookup key d with
  | Some v => v
  | None => JNull
  end.

(** [d[key] = value]: overwrite in place, or append a new entry. *)
Fixpoint dict_set (key : pystr) (value : json) (d : list (pystr * json))
  : list (pystr * json) :=
  match d with
  | [] => [(key, value)]
  | (k', v') :: d' =>
      if PyStr.eqb k' key then (k', value) :: d'
      else (k', v') :: dict_set key value d'
  end.

Definition keys_distinct {V : Type} (d : list (pystr * V)) : Prop :=
  NoDup (map fst d).

(** A value is well formed when the keys of every dict in it are
    pairwise distinct, as in every value built by [json.loads]. *)
Definition All {A : Type} (P : A -> Prop) : list A -> Prop :=
  fix go (l : list A) : Prop :=
    match l with
    | [] => True
    | x :: l' => P x /\ go l'
    end.

Fixpoint well_formed (v : json) : Prop :=
  match v with
  | JList l => All well_formed l
  | JDict d => keys_distinct d /\ All (fun kv => well_formed (snd kv)) d
  | _ => True
  end.

(** *** Truth value testing *)

Definition float_is_zero (f : spec_float) : bool :=
  match f with
  | S754_zero _ => true
  | _ => false
  end.

Definition truthy (v : json) : bool :=
  match v with
  | JNull => false
  | JBool b => b
  | JInt z => negb (Z.eqb z 0)
  | JFloat f => negb (float_is_zero f)
  | JStr s => negb (PyStr.is_empty s)
  | JList l => match l with [] => false | _ => true end
  | JDict d => match d with [] => false | _ => true end
  end.

(** *** Equality ([==])

    [bool] is a subclass of [int]; an [int] and a [float] compare by
    exact value.  Every [NaN] that [json.loads] returns is the single
    object [json.decoder.NaN], and the comparison of tuples, lists and
    dicts takes two identical objects as equal before it asks [==]; all
    the comparisons of the script go through a tuple, so [NaN] equals
    [NaN] here. *)

Definition float_eqb (a b : spec_float) : bool :=
  match a, b with
  | S754_nan, S754_nan => true
  | S754_zero _, S754_zero _ => true
  | S754_infinity s, S754_infinity t => Bool.eqb s t
  | S754_finite s m e, S754_finite t n f =>
      let lo := Z.min e f in
      Bool.eqb s t && Z.eqb (Z.pos m * 2 ^ (e - lo)) (Z.pos n * 2 ^ (f - lo))
  | _, _ => false
  end.

Definition int_float_eqb (z : Z) (f : spec_float) : bool :=
  match f with
  | S754_zero _ => Z.eqb z 0
  | S754_finite s m e =>
      Z.eqb (z * 2 ^ Z.max 0 (- e))
            ((if s then Z.neg m else Z.pos m) * 2 ^ Z.max 0 e)
  | _ => false
  end.

Inductive number : Type :=
| NumInt (z : Z)
| NumFloat (f : spec_float).

Definition as_number (v : json) : option number :=
  match v with
  | JBool b => Some (NumInt (Z.b2z b))
  | JInt z => Some (NumInt z)
  | JFloat f => Some (NumFloat f)
  | _ => None
  end.

Definition number_eqb (a b : number) : bool :=
  match a, b with
  | NumInt x, NumInt y => Z.eqb x y
  | NumInt x, NumFloat f => int_float_eqb x f
  | NumFloat f, NumInt y => int_float_eqb y f
  | NumFloat f, NumFloat g => float_eqb f g
  end.

Definition all2 {A B : Type} (f : A -> B -> bool)
  : list A -> list B -> bool :=
  fix go (l : list A) (m : list B) : bool :=
    match l, m with
    | [], [] => true
    | x :: l', y :: m' => f x y && go l' m'
    | _, _ => false
    end.

Fixpoint py_eqb (a b : json) {struct a} : bool :=
  match as_number a, as_number b with
  | Some x, Some y => number_eqb x y
  | _, _ =>
      match a, b with
      | JNull, JNull => true
      | JStr s, JStr t => PyStr.eqb s t
      | JList l, JList m => all2 py_eqb l m
      | JDict d, JDict e =>
          Nat.eqb (List.length d) (List.length e)
          && forallb
               (fun kv =>
                  match lookup (fst kv) e with
                  | Some w => py_eqb (snd kv) w
                  | None => false
                  end) d
      | _, _ => false
      end
  end.

(** Equality of two tuples of [(key, value)] pairs. *)
Fixpoint identity_eqb (a b : Identity) : bool :=
  match a, b with
  | [], [] => true
  | (k, v) :: a', (k', v') :: b' =>
      PyStr.eqb k k' && py_eqb v v' && identity_eqb a' b'
  | _, _ => false
  end.

(** *** Type tests *)

(** [isinstance(value, (str, int))]; a [bool] is an [int]. *)
Definition isinstance_str_int (value : json) : bool :=
  match value with
  | JStr _ | JInt _ | JBool _ => true
  | _ => false
  end.

(** [[w for w in data if isinstance(w, dict)]] *)
Fixpoint only_dicts (data : list json) : list Window :=
  match data with
  | [] => []
  | JDict w :: rest => w :: only_dicts rest
  | _ :: rest => only_dicts rest
  end.

(** ** [json.dumps(obj, sort_keys=True, allow_nan=True)]

    The default encoder: separators [", "] and [": "], [ensure_ascii].
    [float.__repr__] belongs to the interpreter and is taken as a
    parameter; nothing is assumed about it. *)

Definition hex_digit (n : N) : N :=
  if N.ltb n 10 then (48 + n)%N else (87 + n)%N.

(** ['{0:04x}'.format(n)] for [n < 0x10000] *)
Definition hex4 (n : N) : pystr :=
  [ hex_digit (N.modulo (N.shiftr n 12) 16);
    hex_digit (N.modulo (N.shiftr n 8) 16);
    hex_digit (N.modulo (N.shiftr n 4) 16);
    hex_digit (N.modulo n 16) ].

(** The replacement of one character in [py_encode_basestring_ascii]. *)
Definition escape_char (c : N) : pystr :=
  if N.eqb c 92 then u "\\"
  else if N.eqb c 34 then [92; 34]%N
  else if N.eqb c 8 then u "\b"
  else if N.eqb c 12 then u "\f"
  else if N.eqb c 10 then u "\n"
  else if N.eqb c 13 then u "\r"
  else if N.eqb c 9 then u "\t"
  else if N.leb 32 c && N.leb c 126 then [c]
  else if N.ltb c 65536 then u "\u" ++ hex4 c
  else
    let n := (c - 65536)%N in
    let s1 := N.lor 55296 (N.land (N.shiftr n 10) 1023) in
    let s2 := N.lor 56320 (N.land n 1023) in
    u "\u" ++ hex4 s1 ++ u "\u" ++ hex4 s2.

Definition encode_basestring_ascii (s : pystr) : pystr :=
  [34%N] ++ flat_map escape_char s ++ [34%N].

Fixpoint decimal_digits (d : Decimal.uint) : pystr :=
  match d with
  | Decimal.Nil => []
  | Decimal.D0 d' => 48%N :: decimal_digits d'
  | Decimal.D1 d' => 49%N :: decimal_digits d'
  | Decimal.D2 d' => 50%N :: decimal_digits d'
  | Decimal.D3 d' => 51%N :: decimal_digits d'
  | Decimal.D4 d' => 52%N :: decimal_digits d'
  | Decimal.D5 d' => 53%N :: decimal_digits d'
  | Decimal.D6 d' => 54%N :: decimal_digits d'
  | Decimal.D7 d' => 55%N :: decimal_digits d'
  | Decimal.D8 d' => 56%N :: decimal_digits d'
  | Decimal.D9 d' => 57%N :: decimal_digits d'
  end.

(** [int.__repr__] *)
Definition int_repr (z : Z) : pystr :=
  match Z.to_int z with
  | Decimal.Pos d => decimal_digits d
  | Decimal.Neg d => 45%N :: decimal_digits d
  end.

(** [sorted(items)] on [(key, text)] pairs whose keys are distinct: the
    tuples are ordered by their keys. *)
Fixpoint insert_item (x : pystr * pystr) (l : list (pystr * pystr))
  : list (pystr * pystr) :=
  match l with
  | [] => [x]
  | y :: l' =>
      if PyStr.leb (fst x) (fst y) then x :: y :: l'
      else y :: insert_item x l'
  end.

Definition sort_items (l : list (pystr * pystr)) : list (pystr * pystr) :=
  fold_right insert_item [] l.

Definition render_item (kv : pystr * pystr) : pystr :=
  encode_basestring_ascii (fst kv) ++ u ": " ++ snd kv.

(** The text of a list whose elements are encoded. *)
Definition list_text (parts : list pystr) : pystr :=
  match parts with
  | [] => u "[]"
  | _ => u "[" ++ join (u ", ") parts ++ u "]"
  end.

(** The text of a dict whose values are encoded, with [sort_keys]. *)
Definition dict_text (items : list (pystr * pystr)) : pystr :=
  match items with
  | [] => u "{}"
  | _ => u "{" ++ join (u ", ") (map render_item (sort_items items)) ++ u "}"
  end.

Section Encoder.

Variable float_repr : spec_float -> pystr.

Definition encode_float (f : spec_float) : pystr :=
  match f with
  | S754_nan => u "NaN"
  | S754_infinity false => u "Infinity"
  | S754_infinity true => u "-Infinity"
  | _ => float_repr f
  end.

(** The values of a dict are encoded where they stand and the encoded
    items are then put in key order; the encoder sorts the items first
    and encodes them in that order, which gives the same text since the
    order only looks at the keys. *)
Fixpoint json_dumps (o : json) : pystr :=
  match o with
  | JNull => u "null"
  | JBool true => u "true"
  | JBool false => u "false"
  | JInt z => int_repr z
  | JFloat f => encode_float f
  | JStr s => encode_basestring_ascii s
  | JList l => list_text (map json_dumps l)
  | JDict d => dict_text (map (fun kv => (fst kv, json_dumps (snd kv))) d)
  end.

End Encoder.

(** ** The process boundary

    The script touches the outside world through [subprocess.run],
    [time.sleep] and diagnostics printed to standard error. *)

(** What [json.loads] makes of the captured standard output. *)
Inductive captured : Type :=
| NotJson                      (* json.loads raises JSONDecodeError *)
| JsonRaises                   (* json.loads raises another exception:
                                  ValueError for an integer beyond the
                                  digit limit, RecursionError *)
| JsonText (j : json).

(** The outcome of [subprocess.run(..., check=True)]. *)
Inductive proc_result : Type :=
| ProcRaised                   (* OSError or CalledProcessError *)
| ProcEscaped                  (* another exception, such as the
                                  UnicodeDecodeError of [text=True] on
                                  output that cannot be decoded *)
| ProcCompleted (stdout : captured).

Inductive Direction : Type := Up | Down | Left | Right.

(** The lines [main] prints under [--debug], with the values they
    interpolate. *)
Inductive debug_msg : Type :=
| MsgOverviewOpen (action : pystr)
| MsgNoWindows
| MsgNoFocused
| MsgFloating
| MsgRunPrimary (action : pystr) (direction : Direction)
| MsgPrimaryFailed
| MsgRequeryFailed
| MsgFocusCompare (before : Identity) (after : option Identity)
                  (fallback_needed : bool)
| MsgMoveCompare (changed : bool) (window_missing : bool)
| MsgRunFallback (action : pystr).

(** A program returns a value, raises an exception that nothing
    catches, or goes on after an effect. *)
Inductive io (A : Type) : Type :=
| Ret (a : A)
| Uncaught
| SubprocessRun (argv : list pystr) (capture_output : bool)
                (k : proc_result -> io A)
| TimeSleep (milliseconds : Z) (k : io A)
| PrintStderr (m : debug_msg) (k : io A).

Arguments Ret {A} a.
Arguments Uncaught {A}.
Arguments SubprocessRun {A} argv capture_output k.
Arguments TimeSleep {A} milliseconds k.
Arguments PrintStderr {A} m k.

Fixpoint io_bind {A B : Type} (p : io A) (f : A -> io B) : io B :=
  match p with
  | Ret a => f a
  | Uncaught => Uncaught
  | SubprocessRun argv c k => SubprocessRun argv c (fun r => io_bind (k r) f)
  | TimeSleep ms k => TimeSleep ms (io_bind k f)
  | PrintStderr m k => PrintStderr m (io_bind k f)
  end.

#[export] Instance Monad_io : Monad io :=
  {| ret := @Ret; bind := @io_bind |}.

(** An exception leaves the function and every caller. *)
Definition uncaught {A : Type} : io A := Uncaught.

Definition subprocess_run (argv : list pystr) (capture_output : bool)
  : io proc_result :=
  SubprocessRun argv capture_output Ret.

Definition time_sleep (milliseconds : Z) : io unit :=
  TimeSleep milliseconds (Ret tt).

Definition print_stderr (m : debug_msg) : io unit :=
  PrintStderr m (Ret tt).

(** One line of the record of a run. *)
Inductive entry : Type :=
| Ran (argv : list pystr) (capture_output : bool) (r : proc_result)
| Slept (milliseconds : Z)
| Printed (m : debug_msg).

(** The outside world: a state, and how it answers a command and lets
    time pass. *)
Record World : Type := {
  wstate : Type;
  answer : list pystr -> bool -> wstate -> proc_result * wstate;
  elapse : Z -> wstate -> wstate
}.

(** How a run ends: the program returned, or an exception reached the
    top and the interpreter printed a traceback. *)
Inductive outcome (A : Type) : Type :=
| Returned (a : A)
| Traceback.

Arguments Returned {A} a.
Arguments Traceback {A}.

Fixpoint run {A : Type} (W : World) (p : io A) (s : wstate W)
  : outcome A * list entry * wstate W :=
  match p with
  | Ret a => (Returned a, [], s)
  | Uncaught => (Traceback, [], s)
  | SubprocessRun argv c k =>
      let '(r, s1) := answer W argv c s in
      let '(a, t, s2) := run W (k r) s1 in
      (a, Ran argv c r :: t, s2)
  | TimeSleep ms k =>
      let '(a, t, s2) := run W k (elapse W ms s) in
      (a, Slept ms :: t, s2)
  | PrintStderr m k =>
      let '(a, t, s2) := run W k s in
      (a, Printed m :: t, s2)
  end.

(** The actions a run asked the compositor to perform, in order. *)
Definition action_of (e : entry) : option pystr :=
  match e with
  | Ran [a; b; c; action] false _ =>
      if PyStr.eqb a (u "niri") && PyStr.eqb b (u "msg")
         && PyStr.eqb c (u "action")
      then Some action else None
  | _ => None
  end.

Fixpoint actions (t : list entry) : list pystr :=
  match t with
  | [] => []
  | e :: t' =>
      match action_of e with
      | Some a => a :: actions t'
      | None => actions t'
      end
  end.

(** The JSON queries a run issued, in order. *)
Fixpoint queries (t : list entry) : list (list pystr) :=
  match t with
  | [] => []
  | Ran argv true _ :: t' => argv :: queries t'
  | _ :: t' => queries t'
  end.

(** ** The script *)

Local Open Scope monad_scope.

(** The two [except] clauses of [_run_niri_json] name [OSError],
    [CalledProcessError] and [JSONDecodeError]; any other exception of
    [subprocess.run] or of [json.loads] leaves the function. *)
Definition _run_niri_json (command : list pystr) : io json :=
  result <- subprocess_run command true ;;
  match result with
  | ProcRaised => ret JNull
  | ProcEscaped => uncaught
  | ProcCompleted NotJson => ret JNull
  | ProcCompleted JsonRaises => uncaught
  | ProcCompleted (JsonText j) => ret j
  end.

Definition windows_query : list pystr :=
  [u "niri"; u "msg"; u "-j"; u "windows"].

Definition overview_query : list pystr :=
  [u "niri"; u "msg"; u "-j"; u "overview-state"].

Definition _collect_windows : io (list Window) :=
  data <- _run_niri_json windows_query ;;
  match data with
  | JNull => ret []
  | JList l => ret (only_dicts l)
  | JDict d =>
      match dict_get (u "windows") d with
      | JList l => ret (only_dicts l)
      | _ => ret []
      end
  | _ => ret []
  end.

Definition _run_action (action : pystr) : io bool :=
  result <- subprocess_run [u "niri"; u "msg"; u "action"; action] false ;;
  match result with
  | ProcCompleted _ => ret true
  | ProcRaised => ret false
  | ProcEscaped => uncaught
  end.

Definition _overview_state : io (option (list (pystr * json))) :=
  data <- _run_niri_json overview_query ;;
  match data with
  | JDict d => ret (Some d)
  | _ => ret None
  end.

Definition _overview_is_open : io (option bool) :=
  state <- _overview_state ;;
  match state with
  | None => ret None
  | Some state =>
      match dict_get (u "is_open") state with
      | JBool is_open => ret (Some is_open)
      | _ => ret None
      end
  end.

Definition _focused_window (windows : list Window) : option Window :=
  find (fun w => truthy (dict_get (u "is_focused") w)) windows.

Definition candidate_keys : list pystr :=
  [u "persistent_id"; u "window_id"; u "id"; u "surface_id";
   u "toplevel_id"; u "wayland_id"].

Definition fallback_keys : list pystr :=
  [u "workspace_id"; u "app_id"; u "title"; u "pid"].

(** The first loop of [_window_identity]: it stops at the first key
    whose value passes the type test. *)
Fixpoint first_candidate (keys : list pystr) (win : Window) : Identity :=
  match keys with
  | [] => []
  | key :: rest =>
      let value := dict_get key win in
      if isinstance_str_int value then [(key, value)]
      else first_candidate rest win
  end.

Definition _window_identity (win : Window) : Identity :=
  let parts := first_candidate candidate_keys win in
  match parts with
  | [] => map (fun key => (key, dict_get key win)) fallback_keys
  | _ => parts
  end.

Fixpoint _find_window_by_identity (windows : list Window) (identity : Identity)
  : option Window :=
  match windows with
  | [] => None
  | win :: rest =>
      if identity_eqb (_window_identity win) identity then Some win
      else _find_window_by_identity rest identity
  end.

Definition _is_focus_action (action : pystr) : bool :=
  startswith action (u "focus-").

Record Args : Type := {
  direction : Direction;
  primary_action : pystr;
  fallback_action : pystr;
  overview_action : option pystr;
  debug : bool
}.

(** [a or b] for an optional string [a]. *)
Definition str_or (a : option pystr) (b : pystr) : pystr :=
  match a with
  | None => b
  | Some s => if PyStr.is_empty s then b else s
  end.

Definition debug_print (args : Args) (m : debug_msg) : io unit :=
  if debug args then print_stderr m else ret tt.

(** [return 0 if _run_action(action) else 1] *)
Definition exit_with_action (action : pystr) : io Z :=
  ok <- _run_action action ;;
  ret (if ok : bool then 0 else 1).

(** The dict that [_window_snapshot] fills before it serializes it. *)
Definition snapshot_dict (win : Window) : list (pystr * json) :=
  let snapshot :=
    [(u "workspace_id", dict_get (u "workspace_id") win);
     (u "layout", dict_get (u "layout") win)] in
  fold_left
    (fun snapshot kv =>
       if contains (fst kv) (u "column")
       then dict_set (fst kv) (snd kv) snapshot
       else snapshot)
    win snapshot.

Section Script.

Variable float_repr : spec_float -> pystr.

Definition _window_snapshot (win : Window) : pystr :=
  json_dumps float_repr (JDict (snapshot_dict win)).

(** Step 9 of [main], for a focus-type primary action. *)
Definition compare_focus (args : Args) (windows_after : list Window)
           (focused_identity : Identity) : io bool :=
  let focused_after := _focused_window windows_after in
  let fallback_needed :=
    match focused_after with
    | None => true
    | Some w =>
        match w with
        | [] => true
        | _ => identity_eqb (_window_identity w) focused_identity
        end
    end in
  let after_identity :=
    match focused_after with
    | None => None
    | Some w =>
        match w with
        | [] => None
        | _ => Some (_window_identity w)
        end
    end in
  debug_print args
    (MsgFocusCompare focused_identity after_identity fallback_needed) ;;
  ret fallback_needed.

(** Step 9 of [main], for a move-type primary action. *)
Definition compare_move (args : Args) (windows_after : list Window)
           (focused_identity : Identity) (before_snapshot : pystr)
  : io bool :=
  let moved_window := _find_window_by_identity windows_after focused_identity in
  let fallback_needed :=
    match moved_window with
    | None => false
    | Some w => PyStr.eqb (_window_snapshot w) before_snapshot
    end in
  debug_print args
    (MsgMoveCompare (negb fallback_needed)
                    (match moved_window with None => true | _ => false end)) ;;
  ret fallback_needed.

Definition main (args : Args) : io Z :=
  overview_open <- _overview_is_open ;;
  match overview_open with
  | Some true =>
      let action := str_or (overview_action args) (fallback_action args) in
      debug_print args (MsgOverviewOpen action) ;;
      exit_with_action action
  | _ =>
  windows_before <- _collect_windows ;;
  match windows_before with
  | [] =>
      debug_print args MsgNoWindows ;;
      exit_with_action (fallback_action args)
  | _ =>
  match _focused_window windows_before with
  | None | Some [] =>
      debug_print args MsgNoFocused ;;
      exit_with_action (fallback_action args)
  | Some focused_before =>
  if truthy (dict_get (u "is_floating") focused_before) then
      debug_print args MsgFloating ;;
      exit_with_action (fallback_action args)
  else
  let focused_identity := _window_identity focused_before in
  let before_snapshot := _window_snapshot focused_before in
  let primary_is_focus := _is_focus_action (primary_action args) in
  debug_print args (MsgRunPrimary (primary_action args) (direction args)) ;;
  ok <- _run_action (primary_action args) ;;
  if negb ok then
      debug_print args MsgPrimaryFailed ;;
      ret 1
  else
  time_sleep 10 ;;
  windows_after <- _collect_windows ;;
  match windows_after with
  | [] =>
      debug_print args MsgRequeryFailed ;;
      ret 1
  | _ =>
  fallback_needed <-
    (if primary_is_focus
     then compare_focus args windows_after focused_identity
     else compare_move args windows_after focused_identity before_snapshot) ;;
  if fallback_needed : bool then
      debug_print args (MsgRunFallback (fallback_action args)) ;;
      exit_with_action (fallback_action args)
  else ret 0
  end end end end.

End Script.

(** ** The vocabulary of the statements *)

(** The test [_focused_window] applies to a window. *)
Definition is_focused (w : Window) : bool :=
  truthy (dict_get (u "is_focused") w).

(** Values of a focus flag that count as not focused: false, null, zero
    (integer or float) and the empty string. *)
Definition falsy_flags : list json :=
  [JBool false; JNull; JInt 0; JFloat (S754_zero false); JStr []].

(** The values [_window_identity] accepts for a priority field. *)
Definition accepted_id (v : json) : Prop :=
  (exists s, v = JStr s) \/ (exists z, v = JInt z) \/ (exists b, v = JBool b).

(** Text or an integer, the type test as [(str, int)] reads. *)
Definition text_or_integer (v : json) : Prop :=
  (exists s, v = JStr s) \/ (exists z, v = JInt z).

(** Two values hold the same data when they differ at most in the order
    in which their dicts, at any depth, hold their keys. *)
#[local] Unset Elimination Schemes.
Inductive same_data : json -> json -> Prop :=
| same_value (v : json) : same_data v v
| same_list (l m : list json) :
    Forall2 same_data l m -> same_data (JList l) (JList m)
| same_dict (d d' e : list (pystr * json)) :
    Forall2 (fun kv kv' => fst kv = fst kv' /\ same_data (snd kv) (snd kv'))
            d d' ->
    Permutation d' e ->
    same_data (JDict d) (JDict e).
#[local] Set Elimination Schemes.

(** Two lookups agree: both find the same data, or both find nothing. *)
Definition same_field (a b : option json) : Prop :=
  match a, b with
  | Some x, Some y => same_data x y
  | None, None => True
  | _, _ => False
  end.

(** The order [sort_items] puts encoded items in. *)
Definition key_le (x y : pystr * pystr) : Prop :=
  PyStr.leb (fst x) (fst y) = true.

(** The test [_window_snapshot] applies to an item of the window. *)
Definition is_column_field (kv : pystr * json) : bool :=
  contains (fst kv) (u "column").

(** The column fields of [w1], each with the value [w2] holds for it. *)
Definition column_fields_in (w1 w2 : Window) : list (pystr * json) :=
  map (fun kv => (fst kv, dict_get (fst kv) w2)) (filter is_column_field w1).

(** The exit status of a run of [main], handed to [sys.exit]; when an
    exception reaches the top the interpreter exits with status 1.  And
    the record of the run. *)
Definition exit_code {W : World} (r : outcome Z * list entry * wstate W) : Z :=
  match fst (fst r) with
  | Returned code => code
  | Traceback => 1
  end.

Definition record {W : World} (r : outcome Z * list entry * wstate W)
  : list entry :=
  snd (fst r).

(** Steps 6 to 10 of [main], as they stand in it. *)
Definition steps_6_to_10 (float_repr : spec_float -> pystr) (args : Args)
           (focused_before : Window) : io Z :=
  (ok <- _run_action (primary_action args) ;;
   if negb ok then
     debug_print args MsgPrimaryFailed ;; ret 1
   else
     time_sleep 10 ;;
     windows_after <- _collect_windows ;;
     match windows_after with
     | [] => debug_print args MsgRequeryFailed ;; ret 1
     | _ =>
         fallback_needed <-
           (if _is_focus_action (primary_action args)
            then compare_focus args windows_after
                   (_window_identity focused_before)
            else compare_move float_repr args windows_after
                   (_window_identity focused_before)
                   (_window_snapshot float_repr focused_before)) ;;
         if fallback_needed : bool then
           debug_print args (MsgRunFallback (fallback_action args)) ;;
           exit_with_action (fallback_action args)
         else ret 0
     end)%monad.

(** The answers to the window query that leave no window to work with:
    the query failed, its output is not JSON, the JSON has another shape
    than a list or an object holding a list under [windows], or the list
    holds no window. *)
Inductive no_windows : proc_result -> Prop :=
| query_failed : no_windows ProcRaised
| malformed_json : no_windows (ProcCompleted NotJson)
| unexpected_shape (j : json) :
    (forall l, j <> JList l) ->
    (forall d l, j = JDict d -> dict_get (u "windows") d <> JList l) ->
    no_windows (ProcCompleted (JsonText j))
| empty_list (l : list json) :
    only_dicts l = [] ->
    no_windows (ProcCompleted (JsonText (JList l)))
| empty_wrapped_list (d : list (pystr * json)) (l : list json) :
    dict_get (u "windows") d = JList l ->
    only_dicts l = [] ->
    no_windows (ProcCompleted (JsonText (JDict d))).

(** The focus did not move: after the primary action no window is
    focused, or the focused one has the identity recorded before. *)
Definition focus_unchanged (windows_after : list Window)
           (focused_identity : Identity) : Prop :=
  _focused_window windows_after = None
  \/ exists w, _focused_window windows_after = Some w
               /\ identity_eqb (_window_identity w) focused_identity = true.

(** ** A scripted world and sample windows *)

(** A world that answers each command with the next reply of a script. *)
Definition scripted : World :=
  {| wstate := list proc_result;
     answer := fun _ _ s =>
                 match s with
                 | [] => (ProcRaised, [])
                 | r :: s' => (r, s')
                 end;
     elapse := fun _ s => s |}.

(** A stand-in for [float.__repr__] for runs whose windows hold no float. *)
Definition sample_float_repr (f : spec_float) : pystr := u "0.0".

Definition sample_window (id : Z) (focused : bool) (column : Z) : Window :=
  [(u "id", JInt id);
   (u "is_focused", JBool focused);
   (u "is_floating", JBool false);
   (u "workspace_id", JInt 1);
   (u "layout", JDict [(u "tile", JInt 1); (u "pos", JList [JInt column; JInt 1])]);
   (u "column_index", JInt column)].

(** The same fields as [sample_window], held in another order, also
    inside the layout, and with one more field. *)
Definition sample_window_reordered (id : Z) (focused : bool) (column : Z)
  : Window :=
  [(u "column_index", JInt column);
   (u "title", JStr (u "term"));
   (u "layout", JDict [(u "pos", JList [JInt column; JInt 1]); (u "tile", JInt 1)]);
   (u "workspace_id", JInt 1);
   (u "is_floating", JBool false);
   (u "is_focused", JBool focused);
   (u "id", JInt id)].

Definition windows_reply (windows : list Window) : proc_result :=
  ProcCompleted (JsonText (JList (map JDict windows))).

Definition overview_reply (is_open : bool) : proc_result :=
  ProcCompleted (JsonText (JDict [(u "is_open", JBool is_open)])).

Definition action_done : proc_result := ProcCompleted NotJson.

Definition focus_args : Args :=
  {| direction := Right;
     primary_action := u "focus-column-right";
     fallback_action := u "focus-workspace-down";
     overview_action := None;
     debug := true |}.

Definition move_args : Args :=
  {| direction := Up;
     primary_action := u "move-window-up";
     fallback_action := u "move-window-to-workspace-up";
     overview_action := Some (u "move-workspace-up");
     debug := false |}.

(** ** Further vocabulary: the effects of a run *)

(** The record of a run without the diagnostics. *)
Fixpoint effects (t : list entry) : list entry :=
  match t with
  | [] => []
  | Printed _ :: t' => effects t'
  | e :: t' => e :: effects t'
  end.

(** The entry [_run_action] leaves in the record. *)
Definition action_entry (action : pystr) (r : proc_result) : entry :=
  Ran [u "niri"; u "msg"; u "action"; action] false r.

(** What [debug_print] adds to the record. *)
Definition debug_line (args : Args) (m : debug_msg) : list entry :=
  if debug args then [Printed m] else [].

(** The answers to a query that make [_run_niri_json] raise: an
    exception of [subprocess.run] or of [json.loads] that neither
    [except] clause names. *)
Definition escapes_query (r : proc_result) : Prop :=
  r = ProcEscaped \/ r = ProcCompleted JsonRaises.

(** The answers to the window query that show at least one window: a
    list, bare or under [windows], that holds an object. *)
Definition has_windows (r : proc_result) : Prop :=
  (exists l, r = ProcCompleted (JsonText (JList l)) /\ only_dicts l <> [])
  \/ (exists d l, r = ProcCompleted (JsonText (JDict d))
                  /\ dict_get (u "windows") d = JList l
                  /\ only_dicts l <> []).

(** An effect that went well: an action that completed, or a query
    that showed at least one window. *)
Definition went_well (e : entry) : Prop :=
  match e with
  | Ran _ false (ProcCompleted _) => True
  | Ran _ true r => has_windows r
  | _ => False
  end.

(** Two programs that differ at most in what they print. *)
Inductive same_effects {A : Type} : io A -> io A -> Prop :=
| same_ret (a : A) : same_effects (Ret a) (Ret a)
| same_uncaught : same_effects Uncaught Uncaught
| same_run (argv : list pystr) (c : bool) (k k' : proc_result -> io A) :
    (forall r, same_effects (k r) (k' r)) ->
    same_effects (SubprocessRun argv c k) (SubprocessRun argv c k')
| same_sleep (ms : Z) (k k' : io A) :
    same_effects k k' -> same_effects (TimeSleep ms k) (TimeSleep ms k')
| same_print_left (m : debug_msg) (k p : io A) :
    same_effects k p -> same_effects (PrintStderr m k) p
| same_print_right (m : debug_msg) (p k : io A) :
    same_effects p k -> same_effects p (PrintStderr m k).

(** [key] is the priority field [_window_identity] stops at for [win]. *)
Definition identified_by (win : Window) (key : pystr) : Prop :=
  exists before after,
    candidate_keys = before ++ key :: after
    /\ Forall (fun k => ~ accepted_id (dict_get k win)) before
    /\ accepted_id (dict_get key win).

(** No priority field of [win] holds an accepted value. *)
Definition unidentified (win : Window) : Prop :=
  Forall (fun k => ~ accepted_id (dict_get k win)) candidate_keys.

(** The value, the record and the final state of a run of any program. *)
Definition value_of {W : World} {A : Type}
           (r : outcome A * list entry * wstate W)
  : outcome A := fst (fst r).

Definition record_of {W : World} {A : Type}
           (r : outcome A * list entry * wstate W)
  : list entry := snd (fst r).

Definition state_of {W : World} {A : Type}
           (r : outcome A * list entry * wstate W)
  : wstate W := snd r.

(** The test [isinstance(w, dict)]. *)
Definition is_object (v : json) : bool :=
  match v with
  | JDict _ => true
  | _ => false
  end.

(** How [main] ends on the outcome of its last action:
    [return 0 if _run_action(action) else 1], or the exception. *)
Definition ends_with (r : proc_result) : outcome Z :=
  match r with
  | ProcCompleted _ => Returned 0
  | ProcRaised => Returned 1
  | ProcEscaped => Traceback
  end.

(** The ways a run of [main] can go, by its effects and its end. *)
Inductive main_path (W : World) (args : Args)
          (R : outcome Z * list entry * wstate W) : Prop :=
| path_overview_escaped (r0 : proc_result) :
    effects (record R) = [Ran overview_query true r0] ->
    escapes_query r0 ->
    value_of R = Traceback ->
    main_path W args R
| path_overview (r0 ra : proc_result) :
    effects (record R)
    = [Ran overview_query true r0;
       action_entry (str_or (overview_action args) (fallback_action args)) ra] ->
    value_of R = ends_with ra ->
    main_path W args R
| path_before_escaped (r0 r1 : proc_result) :
    effects (record R)
    = [Ran overview_query true r0; Ran windows_query true r1] ->
    escapes_query r1 ->
    value_of R = Traceback ->
    main_path W args R
| path_fallback_only (r0 r1 rf : proc_result) :
    effects (record R)
    = [Ran overview_query true r0; Ran windows_query true r1;
       action_entry (fallback_action args) rf] ->
    value_of R = ends_with rf ->
    main_path W args R
| path_primary_failed (r0 r1 rp : proc_result) :
    effects (record R)
    = [Ran overview_query true r0; Ran windows_query true r1;
       action_entry (primary_action args) rp] ->
    rp = ProcRaised \/ rp = ProcEscaped ->
    value_of R = ends_with rp ->
    main_path W args R
| path_unobservable (r0 r1 r3 : proc_result) (out : captured) :
    effects (record R)
    = [Ran overview_query true r0; Ran windows_query true r1;
       action_entry (primary_action args) (ProcCompleted out);
       Slept 10; Ran windows_query true r3] ->
    no_windows r3 ->
    value_of R = Returned 1 ->
    main_path W args R
| path_after_escaped (r0 r1 r3 : proc_result) (out : captured) :
    effects (record R)
    = [Ran overview_query true r0; Ran windows_query true r1;
       action_entry (primary_action args) (ProcCompleted out);
       Slept 10; Ran windows_query true r3] ->
    escapes_query r3 ->
    value_of R = Traceback ->
    main_path W args R
| path_primary_sufficed (r0 r1 r3 : proc_result) (out : captured) :
    effects (record R)
    = [Ran overview_query true r0; Ran windows_query true r1;
       action_entry (primary_action args) (ProcCompleted out);
       Slept 10; Ran windows_query true r3] ->
    has_windows r3 ->
    value_of R = Returned 0 ->
    main_path W args R
| path_primary_then_fallback (r0 r1 r3 rf : proc_result) (out : captured) :
    effects (record R)
    = [Ran overview_query true r0; Ran windows_query true r1;
       action_entry (primary_action args) (ProcCompleted out);
       Slept 10; Ran windows_query true r3;
       action_entry (fallback_action args) rf] ->
    has_windows r3 ->
    value_of R = ends_with rf ->
    main_path W args R.

(** An action that could not be run. *)
Definition failed_action (e : entry) : bool :=
  match e with
  | Ran _ false ProcRaised => true
  | _ => false
  end.

(** A focused floating window. *)
Definition sample_floating_window : Window :=
  [(u "id", JInt 9);
   (u "is_focused", JBool true);
   (u "is_floating", JBool true);
   (u "workspace_id", JInt 1)].

(** * Properties *)

(** ** Strings *)

Lemma pystr_eqb_eq (a b : pystr) : PyStr.eqb a b = true <-> a = b.
Proof.
  revert b; induction a as [|x a IH]; intros [|y b]; simpl;
    try (split; [discriminate | discriminate]); try tauto.
  rewrite andb_true_iff, N.eqb_eq, IH. split.
  - intros [-> ->]; reflexivity.
  - intros H; injection H; auto.
Qed.

Lemma pystr_eqb_refl (a : pystr) : PyStr.eqb a a = true.
Proof. apply pystr_eqb_eq; reflexivity. Qed.

Lemma pystr_eqb_neq (a b : pystr) : PyStr.eqb a b = false <-> a <> b.
Proof.
  rewrite <- pystr_eqb_eq. destruct (PyStr.eqb a b); split; congruence.
Qed.

(** ** Finding the focused window *)

(** C9: [_focused_window] returns the first window, in the order of the
    query, whose focus flag is truthy: it returns [w] exactly when [w]
    stands behind a prefix of windows with no truthy flag and has a
    truthy flag itself (so of several focused windows the earliest one
    is taken), and it returns nothing exactly when no window has a
    truthy flag.  A window whose flag is present but false, null, zero
    or the empty string is passed over like a window without the flag. *)
Theorem focused_window_first_truthy (windows : list Window) :
  (forall w,
      _focused_window windows = Some w <->
      exists before after,
        windows = before ++ w :: after
        /\ Forall (fun x => is_focused x = false) before
        /\ is_focused w = true)
  /\ (_focused_window windows = None <->
      Forall (fun x => is_focused x = false) windows)
  /\ (forall w v,
         lookup (u "is_focused") w = Some v -> In v falsy_flags ->
         is_focused w = false
         /\ _focused_window (w :: windows) = _focused_window windows)
  /\ (forall w,
         lookup (u "is_focused") w = None ->
         _focused_window (w :: windows) = _focused_window windows).
Proof.
  assert (F : forall l, _focused_window l = find is_focused l)
    by reflexivity.
  assert (Falsy : forall w v,
             lookup (u "is_focused") w = Some v -> In v falsy_flags ->
             is_focused w = false).
  { intros w v Hw Hv. unfold is_focused, dict_get. rewrite Hw.
    simpl in Hv. intuition (subst; reflexivity). }
  rewrite !F. split; [|split; [|split]].
  - intros w. split.
    + induction windows as [|x l IH]; cbn [find]; [discriminate|].
      destruct (is_focused x) eqn:E; intros H.
      * injection H as <-. exists [], l. auto.
      * destruct (IH H) as (b & a & -> & Hb & Hw).
        exists (x :: b), a. auto.
    + intros (b & a & -> & Hb & Hw).
      induction Hb as [|x b Hx Hb IH]; cbn [find app].
      * rewrite Hw; reflexivity.
      * rewrite Hx; exact IH.
  - split.
    + intros H. induction windows as [|x l IH]; cbn [find] in *; [constructor|].
      destruct (is_focused x) eqn:E; [discriminate|]. constructor; auto.
    + intros H. induction H as [|x l Hx Hl IH]; cbn [find]; [reflexivity|].
      rewrite Hx; exact IH.
  - intros w v Hw Hv. rewrite !F. cbn [find].
    rewrite (Falsy w v Hw Hv). auto.
  - intros w Hw. rewrite !F. cbn [find].
    assert (E : is_focused w = false).
    { unfold is_focused, dict_get. rewrite Hw. reflexivity. }
    rewrite E. reflexivity.
Qed.

(** ** Well-formed values and the reflexivity of [==] *)

Lemma lookup_in {V : Type} (k : pystr) (v : V) (d : list (pystr * V)) :
  lookup k d = Some v -> In (k, v) d.
Proof.
  induction d as [|[k' v'] d IH]; simpl; [discriminate|].
  destruct (PyStr.eqb k' k) eqn:E.
  - apply pystr_eqb_eq in E. intros H; injection H as ->. subst; auto.
  - auto.
Qed.

Lemma in_lookup {V : Type} (k : pystr) (v : V) (d : list (pystr * V)) :
  keys_distinct d -> In (k, v) d -> lookup k d = Some v.
Proof.
  unfold keys_distinct.
  induction d as [|[k' v'] d IH]; simpl; [tauto|].
  intros ND [H | H].
  - injection H as -> ->. rewrite pystr_eqb_refl. reflexivity.
  - inversion ND as [|? ? Hnot ND']; subst.
    destruct (PyStr.eqb k' k) eqn:E; [|auto].
    apply pystr_eqb_eq in E; subst. exfalso. apply Hnot.
    apply (in_map fst) in H. exact H.
Qed.

Lemma float_eqb_refl (f : spec_float) : float_eqb f f = true.
Proof.
  destruct f as [s|s| |s m e]; simpl; auto using Bool.eqb_reflx.
  rewrite Bool.eqb_reflx, Z.eqb_refl. reflexivity.
Qed.

Lemma All_Forall {A : Type} (P : A -> Prop) (l : list A) :
  All P l <-> Forall P l.
Proof.
  induction l as [|x l IH]; simpl.
  - split; constructor.
  - rewrite IH. split.
    + intros [H1 H2]; constructor; assumption.
    + intros H; inversion H; auto.
Qed.

Lemma dict_get_well_formed (k : pystr) (d : list (pystr * json)) :
  well_formed (JDict d) -> well_formed (dict_get k d).
Proof.
  intros [_ H]. apply All_Forall in H. unfold dict_get.
  destruct (lookup k d) as [v|] eqn:E; [|exact I].
  apply lookup_in in E. rewrite Forall_forall in H. apply (H _ E).
Qed.

Lemma py_eqb_refl (v : json) : well_formed v -> py_eqb v v = true.
Proof.
  induction v as [ |b|z|f|s|l IH|d IH] using json_nested_ind;
    intros WF; simpl.
  - reflexivity.
  - apply Z.eqb_refl.
  - apply Z.eqb_refl.
  - apply float_eqb_refl.
  - apply pystr_eqb_refl.
  - simpl in WF. induction IH as [|x l Hx Hl IHl]; [reflexivity|].
    destruct WF as [WFx WFl]. simpl. rewrite (Hx WFx). auto.
  - rewrite Nat.eqb_refl. simpl. destruct WF as [ND WF].
    apply All_Forall in WF. apply forallb_forall. intros [k v] Hin.
    simpl. rewrite (in_lookup k v d ND Hin).
    rewrite Forall_forall in IH, WF. apply (IH _ Hin), (WF _ Hin).
Qed.

Lemma identity_eqb_refl (i : Identity) :
  Forall (fun kv => well_formed (snd kv)) i -> identity_eqb i i = true.
Proof.
  induction 1 as [|[k v] i Hkv Hi IH]; simpl; [reflexivity|].
  rewrite pystr_eqb_refl, (py_eqb_refl v Hkv), IH. reflexivity.
Qed.

(** ** The identity of a window *)

Lemma isinstance_str_int_accepted (v : json) :
  isinstance_str_int v = true <-> accepted_id v.
Proof.
  unfold accepted_id. destruct v; simpl; split;
    try discriminate; try reflexivity; eauto;
    intros [[? H] | [[? H] | [? H]]]; discriminate.
Qed.

Lemma first_candidate_split (win : Window) (before : list pystr)
      (key : pystr) (after : list pystr) :
  Forall (fun k => ~ accepted_id (dict_get k win)) before ->
  accepted_id (dict_get key win) ->
  first_candidate (before ++ key :: after) win = [(key, dict_get key win)].
Proof.
  intros Hb Hk. induction Hb as [|k before Hn Hb IH]; simpl.
  - apply isinstance_str_int_accepted in Hk. rewrite Hk. reflexivity.
  - destruct (isinstance_str_int (dict_get k win)) eqn:E; [|exact IH].
    apply isinstance_str_int_accepted in E. contradiction.
Qed.

Lemma first_candidate_none (win : Window) (keys : list pystr) :
  Forall (fun k => ~ accepted_id (dict_get k win)) keys ->
  first_candidate keys win = [].
Proof.
  induction 1 as [|k keys Hn Hb IH]; simpl; [reflexivity|].
  destruct (isinstance_str_int (dict_get k win)) eqn:E; [|exact IH].
  apply isinstance_str_int_accepted in E. contradiction.
Qed.

Lemma first_candidate_shape (win : Window) (keys : list pystr) :
  first_candidate keys win = []
  \/ exists key, first_candidate keys win = [(key, dict_get key win)].
Proof.
  induction keys as [|k keys IH]; simpl; auto.
  destruct (isinstance_str_int (dict_get k win)); eauto.
Qed.

(** C5, as amended: [_window_identity] is a function of the one window.
    It returns the single (field name, value) pair of the first field, in
    the order persistent id, window id, generic id, surface id, toplevel
    id, wayland id, whose value is text, an integer or a boolean (a
    Python [bool] is an [int]); when no priority field has such a value
    it returns the four pairs of workspace id, app id, title and process
    id, an absent field standing as [None]; the result is never empty,
    and the identity of a window equals itself under the comparison the
    script uses. *)
Theorem window_identity_first_accepted (win : Window) :
  (forall before key after,
      candidate_keys = before ++ key :: after ->
      Forall (fun k => ~ accepted_id (dict_get k win)) before ->
      accepted_id (dict_get key win) ->
      _window_identity win = [(key, dict_get key win)])
  /\ (Forall (fun k => ~ accepted_id (dict_get k win)) candidate_keys ->
      _window_identity win =
        [(u "workspace_id", dict_get (u "workspace_id") win);
         (u "app_id", dict_get (u "app_id") win);
         (u "title", dict_get (u "title") win);
         (u "pid", dict_get (u "pid") win)])
  /\ _window_identity win <> []
  /\ (well_formed (JDict win) ->
      identity_eqb (_window_identity win) (_window_identity win) = true).
Proof.
  split; [|split; [|split]].
  - intros before key after E Hb Hk. unfold _window_identity.
    rewrite E, (first_candidate_split win before key after Hb Hk).
    reflexivity.
  - intros H. unfold _window_identity.
    rewrite (first_candidate_none win candidate_keys H). reflexivity.
  - unfold _window_identity.
    destruct (first_candidate_shape win candidate_keys) as [E | [k E]];
      rewrite E; discriminate.
  - intros WF. apply identity_eqb_refl. unfold _window_identity.
    destruct (first_candidate_shape win candidate_keys) as [E | [k E]];
      rewrite E; repeat constructor; simpl;
      apply dict_get_well_formed; exact WF.
Qed.

(** C5 as stated fails on a boolean: in this window no priority field
    holds text or an integer, yet the identity is the pair of the [id]
    field and not the four-element composite. *)
Lemma window_identity_boolean_field :
  let win := [(u "id", JBool true); (u "title", JStr (u "term"))] in
  Forall (fun k => ~ text_or_integer (dict_get k win)) candidate_keys
  /\ _window_identity win = [(u "id", JBool true)]
  /\ _window_identity win <>
       [(u "workspace_id", dict_get (u "workspace_id") win);
        (u "app_id", dict_get (u "app_id") win);
        (u "title", dict_get (u "title") win);
        (u "pid", dict_get (u "pid") win)].
Proof.
  cbv zeta. split; [|split].
  - repeat constructor; vm_compute;
      intros [[? H] | [? H]]; discriminate.
  - reflexivity.
  - vm_compute. discriminate.
Qed.

(** ** The order of keys and the sorting of items *)

Lemma leb_total (a b : pystr) : PyStr.leb a b = false -> PyStr.leb b a = true.
Proof.
  revert b; induction a as [|x a IH]; intros [|y b]; simpl;
    try discriminate; try reflexivity.
  destruct (N.ltb_spec x y), (N.ltb_spec y x), (N.eqb_spec x y),
    (N.eqb_spec y x); try discriminate; try reflexivity; try lia; auto.
Qed.

Lemma leb_trans (a b c : pystr) :
  PyStr.leb a b = true -> PyStr.leb b c = true -> PyStr.leb a c = true.
Proof.
  revert b c; induction a as [|x a IH]; intros [|y b] [|z c]; simpl;
    try discriminate; try reflexivity.
  destruct (N.ltb_spec x y), (N.ltb_spec y z), (N.ltb_spec x z),
    (N.eqb_spec x y), (N.eqb_spec y z), (N.eqb_spec x z);
    try discriminate; try reflexivity; try lia; eauto.
Qed.

Lemma leb_antisym (a b : pystr) :
  PyStr.leb a b = true -> PyStr.leb b a = true -> a = b.
Proof.
  revert b; induction a as [|x a IH]; intros [|y b]; simpl;
    try discriminate; try reflexivity.
  destruct (N.ltb_spec x y), (N.ltb_spec y x), (N.eqb_spec x y),
    (N.eqb_spec y x); try discriminate; try lia.
  intros H1 H2. subst. f_equal. auto.
Qed.

Lemma insert_item_perm (x : pystr * pystr) (l : list (pystr * pystr)) :
  Permutation (insert_item x l) (x :: l).
Proof.
  induction l as [|y l IH]; simpl; [reflexivity|].
  destruct (PyStr.leb (fst x) (fst y)); [reflexivity|].
  rewrite IH. apply perm_swap.
Qed.

Lemma sort_items_perm (l : list (pystr * pystr)) :
  Permutation (sort_items l) l.
Proof.
  induction l as [|x l IH]; simpl; [reflexivity|].
  rewrite insert_item_perm, IH. reflexivity.
Qed.

Lemma insert_item_sorted (x : pystr * pystr) (l : list (pystr * pystr)) :
  StronglySorted key_le l -> StronglySorted key_le (insert_item x l).
Proof.
  induction 1 as [|y l Hl IH Hy]; simpl.
  - repeat constructor.
  - destruct (PyStr.leb (fst x) (fst y)) eqn:E.
    + constructor; [constructor; assumption|].
      constructor; [exact E|].
      rewrite Forall_forall in *. intros z Hz.
      apply (leb_trans _ (fst y)); [exact E | apply Hy, Hz].
    + constructor; [exact IH|].
      rewrite Forall_forall in *. intros z Hz.
      apply (Permutation_in _ (insert_item_perm x l)) in Hz.
      destruct Hz as [<- | Hz]; [apply leb_total, E | apply Hy, Hz].
Qed.

Lemma sort_items_sorted (l : list (pystr * pystr)) :
  StronglySorted key_le (sort_items l).
Proof.
  induction l as [|x l IH]; simpl; [constructor|].
  apply insert_item_sorted, IH.
Qed.

Lemma same_key_same_item {V : Type} (l : list (pystr * V)) (a b : pystr * V) :
  keys_distinct l -> In a l -> In b l -> fst a = fst b -> a = b.
Proof.
  intros ND Ha Hb E. destruct a as [k v], b as [k' v']. simpl in E. subst k'.
  apply (in_lookup k v l ND) in Ha. apply (in_lookup k v' l ND) in Hb.
  congruence.
Qed.

Lemma sorted_items_unique (l1 l2 : list (pystr * pystr)) :
  StronglySorted key_le l1 -> StronglySorted key_le l2 ->
  Permutation l1 l2 -> keys_distinct l1 -> l1 = l2.
Proof.
  intros S1; revert l2.
  induction S1 as [|a l1 S1 IH Ha]; intros l2 S2 P ND.
  - apply Permutation_nil in P. auto.
  - destruct S2 as [|b l2 S2 Hb].
    + symmetry in P. apply Permutation_nil in P. discriminate.
    + assert (E : a = b).
      { assert (Ia : In a (b :: l2))
          by (apply (Permutation_in _ P); left; reflexivity).
        assert (Ib : In b (a :: l1))
          by (apply (Permutation_in _ (Permutation_sym P)); left;
              reflexivity).
        apply (same_key_same_item (a :: l1)); auto; [left; reflexivity|].
        rewrite Forall_forall in Ha, Hb.
        destruct Ia as [-> | Ia]; [reflexivity|].
        destruct Ib as [<- | Ib]; [reflexivity|].
        apply leb_antisym; [apply Ha, Ib | apply Hb, Ia]. }
      subst b. f_equal. apply IH; auto.
      * apply (Permutation_cons_inv P).
      * unfold keys_distinct in *. simpl in ND. inversion ND; assumption.
Qed.

Lemma sort_items_unique (l1 l2 : list (pystr * pystr)) :
  Permutation l1 l2 -> keys_distinct l1 -> sort_items l1 = sort_items l2.
Proof.
  intros P ND. apply sorted_items_unique; auto using sort_items_sorted.
  - rewrite !sort_items_perm. exact P.
  - unfold keys_distinct in *.
    apply (Permutation_NoDup (l := map fst l1)); auto.
    apply Permutation_map. symmetry. apply sort_items_perm.
Qed.

(** ** The layout snapshot *)

Lemma dict_set_fresh (k : pystr) (v : json) (d : list (pystr * json)) :
  ~ In k (map fst d) -> dict_set k v d = d ++ [(k, v)].
Proof.
  induction d as [|[k' v'] d IH]; simpl; [reflexivity|].
  intros H. destruct (PyStr.eqb k' k) eqn:E.
  - apply pystr_eqb_eq in E. tauto.
  - rewrite IH; tauto.
Qed.

Lemma snapshot_fold (l acc : list (pystr * json)) :
  NoDup (map fst acc ++ map fst (filter is_column_field l)) ->
  fold_left
    (fun snapshot kv =>
       if contains (fst kv) (u "column")
       then dict_set (fst kv) (snd kv) snapshot
       else snapshot) l acc
  = acc ++ filter is_column_field l.
Proof.
  revert acc; induction l as [|[k v] l IH]; intros acc ND; simpl.
  - rewrite app_nil_r. reflexivity.
  - unfold is_column_field at 1 in ND. unfold is_column_field at 1.
    simpl in ND |- *. destruct (contains k (u "column")).
    + simpl in ND. rewrite dict_set_fresh.
      * rewrite IH; [rewrite <- app_assoc; reflexivity|].
        rewrite map_app, <- app_assoc. exact ND.
      * apply NoDup_remove_2 in ND. intros H. apply ND.
        apply in_or_app. left. exact H.
    + apply IH, ND.
Qed.

Lemma keys_distinct_filter {V : Type} (p : pystr * V -> bool)
      (l : list (pystr * V)) :
  keys_distinct l -> keys_distinct (filter p l).
Proof.
  unfold keys_distinct. induction l as [|x l IH]; simpl; [auto|].
  intros ND. inversion ND as [|? ? Hn ND']; subst.
  destruct (p x); simpl; auto. constructor; auto.
  intros H. apply Hn. apply in_map_iff in H. destruct H as (y & E & Hy).
  apply filter_In in Hy. apply in_map_iff. exists y. tauto.
Qed.

Lemma snapshot_keys_distinct (win : Window) :
  keys_distinct win ->
  NoDup ([u "workspace_id"; u "layout"]
           ++ map fst (filter is_column_field win)).
Proof.
  intros ND.
  assert (C : forall k, In k (map fst (filter is_column_field win)) ->
                        contains k (u "column") = true).
  { intros k H. apply in_map_iff in H. destruct H as ([k' v] & <- & H).
    apply filter_In in H. apply H. }
  simpl. constructor; [|constructor].
  - intros [H | H]; [vm_compute in H; discriminate|].
    apply C in H. vm_compute in H. discriminate.
  - intros H. apply C in H. vm_compute in H. discriminate.
  - apply keys_distinct_filter, ND.
Qed.

Lemma snapshot_dict_fields (win : Window) :
  keys_distinct win ->
  snapshot_dict win =
    [(u "workspace_id", dict_get (u "workspace_id") win);
     (u "layout", dict_get (u "layout") win)]
      ++ filter is_column_field win.
Proof.
  intros ND. unfold snapshot_dict. apply snapshot_fold.
  exact (snapshot_keys_distinct win ND).
Qed.

Lemma dict_text_perm (l1 l2 : list (pystr * pystr)) :
  Permutation l1 l2 -> keys_distinct l1 -> dict_text l1 = dict_text l2.
Proof.
  intros P ND. destruct l1 as [|x l1], l2 as [|y l2].
  - reflexivity.
  - apply Permutation_nil in P. discriminate.
  - symmetry in P. apply Permutation_nil in P. discriminate.
  - unfold dict_text. rewrite (sort_items_unique _ _ P ND). reflexivity.
Qed.

(** Values that hold the same data have the same text. *)
Lemma json_dumps_same_data (fr : spec_float -> pystr) (a : json) :
  well_formed a -> forall b, same_data a b ->
  json_dumps fr a = json_dumps fr b.
Proof.
  induction a as [ |x|z|f|x|l IH|d IH] using json_nested_ind;
    intros WF b E; inversion E as [v|l0 m F|d0 d' e F P]; subst;
    try reflexivity.
  - cbn [json_dumps].
    replace (map (json_dumps fr) m) with (map (json_dumps fr) l);
      [reflexivity|].
    simpl in WF. apply All_Forall in WF. clear E.
    induction F as [|x y l m Hxy F IHF]; [reflexivity|].
    inversion IH as [|? ? IHx IHl]; subst.
    inversion WF as [|? ? WFx WFl]; subst.
    simpl. rewrite (IHx WFx y Hxy), (IHF IHl WFl). reflexivity.
  - cbn [json_dumps]. destruct WF as [ND WF].
    apply All_Forall in WF.
    assert (M : map (fun kv => (fst kv, json_dumps fr (snd kv))) d
                = map (fun kv => (fst kv, json_dumps fr (snd kv))) d').
    { clear ND P E. induction F as [|x y d d' [Hk Hv] F IHF]; [reflexivity|].
      inversion IH as [|? ? IHx IHl]; subst.
      inversion WF as [|? ? WFx WFl]; subst.
      simpl. rewrite Hk, (IHx WFx (snd y) Hv), (IHF IHl WFl). reflexivity. }
    rewrite M. apply dict_text_perm.
    + apply Permutation_map, P.
    + rewrite <- M. unfold keys_distinct. rewrite map_map. exact ND.
Qed.

Lemma filter_well_formed (p : pystr * json -> bool)
      (d : list (pystr * json)) :
  Forall (fun kv => well_formed (snd kv)) d ->
  Forall (fun kv => well_formed (snd kv)) (filter p d).
Proof.
  intros H. rewrite Forall_forall in *. intros kv Hin.
  apply filter_In in Hin. apply H, Hin.
Qed.

Lemma snapshot_well_formed (win : Window) :
  well_formed (JDict win) ->
  well_formed
    (JDict ([(u "workspace_id", dict_get (u "workspace_id") win);
             (u "layout", dict_get (u "layout") win)]
              ++ filter is_column_field win)).
Proof.
  intros WF. split.
  - unfold keys_distinct. rewrite map_app.
    apply snapshot_keys_distinct, WF.
  - apply All_Forall. repeat constructor; simpl;
      try (apply dict_get_well_formed, WF).
    apply filter_well_formed, All_Forall, WF.
Qed.

Lemma column_fields_same (w1 w2 : Window) :
  keys_distinct w1 ->
  (forall key, contains key (u "column") = true ->
               same_field (lookup key w1) (lookup key w2)) ->
  Forall2 (fun kv kv' => fst kv = fst kv' /\ same_data (snd kv) (snd kv'))
          (filter is_column_field w1) (column_fields_in w1 w2).
Proof.
  intros ND H. unfold column_fields_in.
  assert (S : forall kv, In kv (filter is_column_field w1) ->
                         same_data (snd kv) (dict_get (fst kv) w2)).
  { intros [k v] Hin. apply filter_In in Hin. destruct Hin as [Hin C].
    specialize (H k C). rewrite (in_lookup k v w1 ND Hin) in H.
    unfold dict_get. simpl in *.
    destruct (lookup k w2); [exact H | contradiction]. }
  induction (filter is_column_field w1) as [|kv l IH]; simpl; constructor.
  - split; [reflexivity | apply S; left; reflexivity].
  - apply IH. intros x Hx. apply S. right. exact Hx.
Qed.

Lemma column_fields_perm (w1 w2 : Window) :
  keys_distinct w1 -> keys_distinct w2 ->
  (forall key, contains key (u "column") = true ->
               same_field (lookup key w1) (lookup key w2)) ->
  Permutation (column_fields_in w1 w2) (filter is_column_field w2).
Proof.
  intros ND1 ND2 H. apply NoDup_Permutation.
  - apply (NoDup_map_inv fst). unfold column_fields_in.
    rewrite map_map. simpl. apply (keys_distinct_filter _ _ ND1).
  - apply (NoDup_map_inv fst), keys_distinct_filter, ND2.
  - intros [k v']. unfold column_fields_in.
    rewrite in_map_iff, filter_In. unfold is_column_field. simpl. split.
    + intros ([k1 v] & E & Hin). injection E as -> <-.
      apply filter_In in Hin. destruct Hin as [Hin C]. simpl in C.
      split; [|exact C]. specialize (H k C).
      rewrite (in_lookup k v w1 ND1 Hin) in H. unfold dict_get.
      destruct (lookup k w2) as [v2|] eqn:E2; [|contradiction].
      apply lookup_in, E2.
    + intros [Hin C]. specialize (H k C).
      rewrite (in_lookup k v' w2 ND2 Hin) in H.
      destruct (lookup k w1) as [v|] eqn:E1; [|contradiction].
      exists (k, v). simpl. split.
      * unfold dict_get. rewrite (in_lookup k v' w2 ND2 Hin). reflexivity.
      * apply filter_In. split; [apply lookup_in, E1 | exact C].
Qed.

(** C6: the snapshot is a function of the workspace id, the layout
    descriptor and the fields whose name contains [column], and of
    nothing else: two windows that agree on these, in whatever order
    their mappings (and the mappings nested in these fields) hold the
    keys and whatever their other fields are, have equal snapshots. *)
Theorem window_snapshot_order_independent
        (float_repr : spec_float -> pystr) (w1 w2 : Window) :
  well_formed (JDict w1) -> keys_distinct w2 ->
  same_data (dict_get (u "workspace_id") w1) (dict_get (u "workspace_id") w2) ->
  same_data (dict_get (u "layout") w1) (dict_get (u "layout") w2) ->
  (forall key, contains key (u "column") = true ->
               same_field (lookup key w1) (lookup key w2)) ->
  _window_snapshot float_repr w1 = _window_snapshot float_repr w2.
Proof.
  intros WF ND2 Hws Hlay Hcol. pose proof (proj1 WF) as ND1.
  unfold _window_snapshot.
  rewrite (snapshot_dict_fields w1 ND1), (snapshot_dict_fields w2 ND2).
  apply json_dumps_same_data; [apply snapshot_well_formed, WF|].
  apply (same_dict _
           ([(u "workspace_id", dict_get (u "workspace_id") w2);
             (u "layout", dict_get (u "layout") w2)]
              ++ column_fields_in w1 w2)).
  - simpl. constructor; [split; [reflexivity | exact Hws]|].
    constructor; [split; [reflexivity | exact Hlay]|].
    apply column_fields_same; assumption.
  - apply Permutation_app_head, column_fields_perm; assumption.
Qed.

(** ** Running the script *)

Lemma run_bind {A B : Type} (W : World) (p : io A) (f : A -> io B)
      (s : wstate W) :
  run W (bind p f) s =
    let '(o, t, s1) := run W p s in
    match o with
    | Returned a =>
        let '(b, t', s2) := run W (f a) s1 in
        (b, t ++ t', s2)
    | Traceback => (Traceback, t, s1)
    end.
Proof.
  revert s. induction p as [a| |argv c k IH|ms k IH|m k IH]; intros s;
    cbn [bind Monad_io io_bind run].
  - destruct (run W (f a) s) as [[b t'] s2]. reflexivity.
  - reflexivity.
  - destruct (answer W argv c s) as [r s1]. specialize (IH r s1).
    cbn [bind Monad_io] in IH. rewrite IH.
    destruct (run W (k r) s1) as [[[a|] t] s2]; [|reflexivity].
    destruct (run W (f a) s2) as [[b t'] s3]. reflexivity.
  - specialize (IH (elapse W ms s)). cbn [bind Monad_io] in IH. rewrite IH.
    destruct (run W k (elapse W ms s)) as [[[a|] t] s2]; [|reflexivity].
    destruct (run W (f a) s2) as [[b t'] s3]. reflexivity.
  - specialize (IH s). cbn [bind Monad_io] in IH. rewrite IH.
    destruct (run W k s) as [[[a|] t] s2]; [|reflexivity].
    destruct (run W (f a) s2) as [[b t'] s3]. reflexivity.
Qed.

Lemma actions_app (t t' : list entry) :
  actions (t ++ t') = actions t ++ actions t'.
Proof.
  induction t as [|e t IH]; simpl; [reflexivity|].
  destruct (action_of e); simpl; rewrite IH; reflexivity.
Qed.

Lemma queries_app (t t' : list entry) :
  queries (t ++ t') = queries t ++ queries t'.
Proof.
  induction t as [|e t IH]; [reflexivity|].
  destruct e as [argv [|] r|ms|m]; simpl; rewrite IH; reflexivity.
Qed.

Lemma run_debug_print (W : World) (args : Args) (m : debug_msg)
      (s : wstate W) :
  exists t, run W (debug_print args m) s = (Returned tt, t, s)
            /\ actions t = [] /\ queries t = [].
Proof.
  unfold debug_print. destruct (debug args); simpl; eauto.
Qed.

Lemma run_action_record (W : World) (action : pystr) (s : wstate W) :
  run W (_run_action action) s =
    (match fst (answer W [u "niri"; u "msg"; u "action"; action] false s) with
     | ProcCompleted _ => Returned true
     | ProcRaised => Returned false
     | ProcEscaped => Traceback
     end,
     [Ran [u "niri"; u "msg"; u "action"; action] false
          (fst (answer W [u "niri"; u "msg"; u "action"; action] false s))],
     snd (answer W [u "niri"; u "msg"; u "action"; action] false s)).
Proof.
  unfold _run_action. cbn [bind Monad_io io_bind subprocess_run run].
  destruct (answer W _ false s) as [[| |out] s1]; reflexivity.
Qed.

Lemma run_niri_json_record (W : World) (command : list pystr) (s : wstate W)
      (data : outcome json) (t : list entry) (s' : wstate W) :
  run W (_run_niri_json command) s = (data, t, s') ->
  exists r, t = [Ran command true r].
Proof.
  unfold _run_niri_json. cbn [bind Monad_io io_bind subprocess_run run].
  destruct (answer W command true s) as [[| |[| |j]] s1];
    cbn [ret Monad_io uncaught run];
    intros E; injection E as _ <- _; eauto.
Qed.

Lemma run_ret {A : Type} (W : World) (x : A) (s : wstate W) :
  run W (ret x) s = (Returned x, [], s).
Proof. reflexivity. Qed.

Lemma collect_windows_record (W : World) (s : wstate W)
      (windows : outcome (list Window)) (t : list entry) (s' : wstate W) :
  run W _collect_windows s = (windows, t, s') ->
  actions t = [] /\ queries t = [windows_query].
Proof.
  unfold _collect_windows. rewrite run_bind.
  destruct (run W (_run_niri_json windows_query) s) as [[data t1] s1] eqn:E.
  apply run_niri_json_record in E. destruct E as [r ->].
  destruct data as [[ |b|z|f|x|l|d]|]; rewrite ?run_ret;
    try (intros H; injection H as _ <- _; split; reflexivity).
  destruct (dict_get (u "windows") d); rewrite ?run_ret;
    intros H; injection H as _ <- _; split; reflexivity.
Qed.

Lemma overview_is_open_record (W : World) (s : wstate W)
      (open : outcome (option bool)) (t : list entry) (s' : wstate W) :
  run W _overview_is_open s = (open, t, s') ->
  actions t = [] /\ queries t = [overview_query].
Proof.
  unfold _overview_is_open, _overview_state. rewrite !run_bind.
  destruct (run W (_run_niri_json overview_query) s) as [[data t1] s1] eqn:E.
  apply run_niri_json_record in E. destruct E as [r ->].
  destruct data as [[ |b|z|f|x|l|d]|]; rewrite ?run_ret; cbv beta iota;
    rewrite ?run_ret;
    try (intros H; injection H as _ <- _; split; reflexivity).
  destruct (dict_get (u "is_open") d); rewrite ?run_ret;
    intros H; injection H as _ <- _; split; reflexivity.
Qed.

Lemma run_action_actions (W : World) (action : pystr) (s : wstate W)
      (ok : outcome bool) (t : list entry) (s' : wstate W) :
  run W (_run_action action) s = (ok, t, s') ->
  actions t = [action] /\ queries t = [].
Proof.
  rewrite run_action_record. intros H; injection H as _ <- _.
  split; reflexivity.
Qed.

Lemma focused_window_nonempty (windows : list Window) (w : Window) :
  _focused_window windows = Some w -> w <> [] /\ windows <> [].
Proof.
  intros H. split.
  - apply find_some in H. destruct H as [_ H]. intros ->. discriminate.
  - intros ->. discriminate.
Qed.

Lemma run_exit_with_action (W : World) (action : pystr) (s : wstate W)
      (ok : bool) (t : list entry) (s' : wstate W) :
  run W (_run_action action) s = (Returned ok, t, s') ->
  run W (exit_with_action action) s = (Returned (if ok then 0 else 1), t, s').
Proof.
  intros H. unfold exit_with_action. rewrite run_bind, H, run_ret.
  rewrite app_nil_r. reflexivity.
Qed.

Lemma run_exit_with_action_record (W : World) (action : pystr)
      (s : wstate W) :
  snd (fst (run W (exit_with_action action) s))
  = snd (fst (run W (_run_action action) s)).
Proof.
  unfold exit_with_action. rewrite run_bind.
  destruct (run W (_run_action action) s) as [[[ok|] t] s']; [|reflexivity].
  rewrite run_ret. cbn [fst snd]. apply app_nil_r.
Qed.

Lemma collect_no_windows (W : World) (s s' : wstate W) (r : proc_result) :
  answer W windows_query true s = (r, s') ->
  no_windows r ->
  run W _collect_windows s = (Returned [], [Ran windows_query true r], s').
Proof.
  intros E N. unfold _collect_windows, _run_niri_json.
  cbn [bind Monad_io io_bind subprocess_run run]. rewrite E.
  destruct N as [ | |j Hl Hd|l Hl|d l Hd Hl];
    cbn [ret Monad_io io_bind run]; try reflexivity.
  - destruct j as [ |b|z|f|x|l|d]; try reflexivity.
    + exfalso. apply (Hl l). reflexivity.
    + specialize (Hd d).
      destruct (dict_get (u "windows") d) as [ | | | | |lw|];
        try reflexivity.
      exfalso. apply (Hd lw); reflexivity.
  - rewrite Hl. reflexivity.
  - rewrite Hd. cbn [run]. rewrite Hl. reflexivity.
Qed.

Lemma run_compare_focus (W : World) (args : Args)
      (windows_after : list Window) (focused_identity : Identity)
      (s : wstate W) :
  exists tc,
    actions tc = [] /\ queries tc = [] /\
    run W (compare_focus args windows_after focused_identity) s =
      (Returned
         match _focused_window windows_after with
         | None => true
         | Some [] => true
         | Some w => identity_eqb (_window_identity w) focused_identity
         end, tc, s).
Proof.
  unfold compare_focus. cbv zeta.
  match goal with
  | |- context [debug_print args ?m] =>
      destruct (run_debug_print W args m s) as (tc & E & A & Q)
  end.
  exists tc. rewrite run_bind, E, run_ret, app_nil_r.
  split; [exact A|]. split; [exact Q|].
  destruct (_focused_window windows_after) as [[|kv w]|]; reflexivity.
Qed.

Lemma run_compare_move (W : World) (float_repr : spec_float -> pystr)
      (args : Args) (windows_after : list Window)
      (focused_identity : Identity) (before_snapshot : pystr)
      (s : wstate W) :
  exists tc,
    actions tc = [] /\ queries tc = [] /\
    run W (compare_move float_repr args windows_after focused_identity
                        before_snapshot) s =
      (Returned
         match _find_window_by_identity windows_after focused_identity with
         | None => false
         | Some w => PyStr.eqb (_window_snapshot float_repr w) before_snapshot
         end, tc, s).
Proof.
  unfold compare_move. cbv zeta.
  match goal with
  | |- context [debug_print args ?m] =>
      destruct (run_debug_print W args m s) as (tc & E & A & Q)
  end.
  exists tc. rewrite run_bind, E, run_ret, app_nil_r. auto.
Qed.

Lemma find_window_by_identity_none (windows : list Window)
      (identity : Identity) :
  Forall (fun w => identity_eqb (_window_identity w) identity = false)
         windows ->
  _find_window_by_identity windows identity = None.
Proof.
  induction 1 as [|w l Hw Hl IH]; simpl; [reflexivity|].
  rewrite Hw. exact IH.
Qed.

Lemma find_window_by_identity_first (windows : list Window)
      (identity : Identity) (earlier : list Window) (w : Window)
      (later : list Window) :
  windows = earlier ++ w :: later ->
  Forall (fun x => identity_eqb (_window_identity x) identity = false)
         earlier ->
  identity_eqb (_window_identity w) identity = true ->
  _find_window_by_identity windows identity = Some w.
Proof.
  intros -> He Hw. induction He as [|x l Hx Hl IH]; simpl.
  - rewrite Hw. reflexivity.
  - rewrite Hx. exact IH.
Qed.

Section Protocol.

Variable W : World.
Variable float_repr : spec_float -> pystr.
Variable args : Args.

Variables s0 s1 s2 : wstate W.
Variable overview_open : option bool.
Variables t0 t1 : list entry.
Variable windows_before : list Window.
Variable focused_before : Window.

Hypothesis overview_answer :
  run W _overview_is_open s0 = (Returned overview_open, t0, s1).
Hypothesis overview_not_open : overview_open <> Some true.
Hypothesis before_answer :
  run W _collect_windows s1 = (Returned windows_before, t1, s2).
Hypothesis before_focused :
  _focused_window windows_before = Some focused_before.
Hypothesis before_tiled :
  truthy (dict_get (u "is_floating") focused_before) = false.

Lemma main_reaches_primary :
  exists tp,
    actions tp = [] /\ queries tp = [] /\
    run W (main float_repr args) s0 =
      let '(code, t, s') :=
        run W (steps_6_to_10 float_repr args focused_before) s2 in
      (code, t0 ++ t1 ++ tp ++ t, s').
Proof.
  destruct (focused_window_nonempty _ _ before_focused) as [NE1 NE2].
  destruct (run_debug_print W args
              (MsgRunPrimary (primary_action args) (direction args)) s2)
    as (tp & E & A & Q).
  exists tp. split; [exact A|]. split; [exact Q|].
  unfold main, steps_6_to_10. rewrite run_bind, overview_answer.
  assert (O : forall (X : Type) (a b : X),
             match overview_open with Some true => a | _ => b end = b).
  { intros X a b. destruct overview_open as [[|]|]; congruence. }
  cbv beta iota. rewrite O. rewrite run_bind, before_answer.
  cbv beta iota.
  destruct windows_before as [|w0 ws]; [congruence|].
  rewrite before_focused.
  destruct focused_before as [|kv fb]; [congruence|].
  rewrite before_tiled. cbv beta iota zeta.
  rewrite run_bind, E. clear E. cbv beta iota.
  destruct (run W _ s2) as [[code t] s']. reflexivity.
Qed.

Lemma prefix_silent :
  actions t0 = [] /\ queries t0 = [overview_query]
  /\ actions t1 = [] /\ queries t1 = [windows_query].
Proof.
  destruct (overview_is_open_record _ _ _ _ _ overview_answer).
  destruct (collect_windows_record _ _ _ _ _ before_answer). auto.
Qed.

Variable s3 : wstate W.
Variable t2 : list entry.

Section PrimaryFails.

Hypothesis primary_fails :
  run W (_run_action (primary_action args)) s2 = (Returned false, t2, s3).

(** C4: when the primary action fails to execute, [main] returns 1, has
    run no action but the primary one (so never the fallback), and has
    issued no query after the overview and the first window query. *)
Theorem primary_failure_is_fatal :
  exit_code (run W (main float_repr args) s0) = 1
  /\ actions (record (run W (main float_repr args) s0))
     = [primary_action args]
  /\ queries (record (run W (main float_repr args) s0))
     = [overview_query; windows_query].
Proof.
  destruct main_reaches_primary as (tp & A & Q & ->).
  destruct prefix_silent as (A0 & Q0 & A1 & Q1).
  destruct (run_action_actions _ _ _ _ _ _ primary_fails) as [A2 Q2].
  unfold steps_6_to_10. rewrite run_bind, primary_fails. cbv beta iota.
  change (negb false) with true. cbv iota.
  destruct (run_debug_print W args MsgPrimaryFailed s3) as (tq & E & A' & Q').
  rewrite run_bind, E, run_ret. unfold exit_code, record. cbn [fst snd].
  rewrite !actions_app, !queries_app, A0, A1, A, A2, A', Q0, Q1, Q, Q2, Q'.
  repeat split.
Qed.

End PrimaryFails.

Section PrimarySucceeds.

Hypothesis primary_ok :
  run W (_run_action (primary_action args)) s2 = (Returned true, t2, s3).

Variable s4 : wstate W.

Lemma main_reaches_requery :
  exists tp,
    actions tp = [] /\ queries tp = [] /\
    run W (main float_repr args) s0 =
      let '(code, t, s') :=
        run W
          (windows_after <- _collect_windows ;;
           match windows_after with
           | [] => debug_print args MsgRequeryFailed ;; ret 1
           | _ =>
               fallback_needed <-
                 (if _is_focus_action (primary_action args)
                  then compare_focus args windows_after
                         (_window_identity focused_before)
                  else compare_move float_repr args windows_after
                         (_window_identity focused_before)
                         (_window_snapshot float_repr focused_before)) ;;
               if fallback_needed : bool then
                 debug_print args (MsgRunFallback (fallback_action args)) ;;
                 exit_with_action (fallback_action args)
               else ret 0
           end)%monad (elapse W 10 s3) in
      (code, t0 ++ t1 ++ tp ++ t2 ++ Slept 10 :: t, s').
Proof.
  destruct main_reaches_primary as (tp & A & Q & ->).
  exists tp. split; [exact A|]. split; [exact Q|].
  unfold steps_6_to_10. rewrite run_bind, primary_ok. cbv beta iota.
  change (negb true) with false. cbv iota.
  rewrite run_bind. change (run W (time_sleep 10) s3)
    with (Returned tt, [Slept 10], elapse W 10 s3). cbv beta iota.
  destruct (run W _ (elapse W 10 s3)) as [[code t] s']. reflexivity.
Qed.

Section RequeryFails.

Variable after_reply : proc_result.

Hypothesis after_answer :
  answer W windows_query true (elapse W 10 s3) = (after_reply, s4).
Hypothesis after_unavailable : no_windows after_reply.

(** C8: when the primary action succeeded and the second window query
    is empty or unavailable, [main] returns 1 and the primary action is
    the only action it has run. *)
Theorem unobservable_after_is_failure :
  exit_code (run W (main float_repr args) s0) = 1
  /\ actions (record (run W (main float_repr args) s0))
     = [primary_action args].
Proof.
  destruct main_reaches_requery as (tp & A & Q & ->).
  destruct prefix_silent as (A0 & Q0 & A1 & Q1).
  destruct (run_action_actions _ _ _ _ _ _ primary_ok) as [A2 Q2].
  rewrite run_bind,
    (collect_no_windows W _ _ _ after_answer after_unavailable).
  cbv beta iota.
  destruct (run_debug_print W args MsgRequeryFailed s4) as (tq & E & A' & Q').
  rewrite run_bind, E, run_ret. unfold exit_code, record. cbn [fst snd].
  rewrite !actions_app. cbn [actions action_of].
  rewrite !actions_app, A0, A1, A, A2, A'. cbn [actions action_of].
  repeat split.
Qed.

End RequeryFails.

Variable t3 : list entry.
Variable windows_after : list Window.

Hypothesis after_answer :
  run W _collect_windows (elapse W 10 s3) = (Returned windows_after, t3, s4).
Hypothesis after_nonempty : windows_after <> [].

Lemma main_reaches_decision :
  exists tp,
    actions tp = [] /\
    run W (main float_repr args) s0 =
      let '(code, t, s') :=
        run W
          (fallback_needed <-
             (if _is_focus_action (primary_action args)
              then compare_focus args windows_after
                     (_window_identity focused_before)
              else compare_move float_repr args windows_after
                     (_window_identity focused_before)
                     (_window_snapshot float_repr focused_before)) ;;
           if fallback_needed : bool then
             debug_print args (MsgRunFallback (fallback_action args)) ;;
             exit_with_action (fallback_action args)
           else ret 0)%monad s4 in
      (code, tp ++ t2 ++ Slept 10 :: t3 ++ t, s').
Proof.
  destruct main_reaches_requery as (tp & A & Q & ->).
  destruct prefix_silent as (A0 & Q0 & A1 & Q1).
  exists (t0 ++ t1 ++ tp). split.
  { rewrite !actions_app, A0, A1, A. reflexivity. }
  rewrite run_bind, after_answer. cbv beta iota.
  destruct windows_after as [|w ws]; [congruence|].
  destruct (run W _ s4) as [[code t] s']. rewrite <- !app_assoc.
  reflexivity.
Qed.

(** What [main] does once [fallback_needed] is known. *)
Lemma main_after_decision (needed : bool) (tc : list entry) :
  actions tc = [] ->
  run W (if _is_focus_action (primary_action args)
         then compare_focus args windows_after
                (_window_identity focused_before)
         else compare_move float_repr args windows_after
                (_window_identity focused_before)
                (_window_snapshot float_repr focused_before)) s4
  = (Returned needed, tc, s4) ->
  (needed = true ->
   actions (record (run W (main float_repr args) s0))
   = [primary_action args; fallback_action args])
  /\ (needed = false ->
      actions (record (run W (main float_repr args) s0))
      = [primary_action args]
      /\ exit_code (run W (main float_repr args) s0) = 0).
Proof.
  intros Ac Ec.
  destruct main_reaches_decision as (tp & A & ->).
  destruct (run_action_actions _ _ _ _ _ _ primary_ok) as [A2 Q2].
  destruct (collect_windows_record _ _ _ _ _ after_answer) as [A3 Q3].
  rewrite run_bind, Ec. cbv beta iota. split; intros ->.
  - destruct (run_debug_print W args
                (MsgRunFallback (fallback_action args)) s4)
      as (tq & E & A' & Q').
    rewrite run_bind, E. cbv beta iota.
    pose proof (run_exit_with_action_record W (fallback_action args) s4) as R.
    destruct (run W (_run_action (fallback_action args)) s4)
      as [[okf t4] s5] eqn:Ef.
    destruct (run_action_actions _ _ _ _ _ _ Ef) as [A4 Q4].
    destruct (run W (exit_with_action (fallback_action args)) s4)
      as [[code t4'] s5']. cbn [fst snd] in R. subst t4'.
    unfold record. cbn [fst snd].
    rewrite !actions_app. cbn [actions action_of].
    rewrite !actions_app, A, A2, A3, Ac, A', A4. reflexivity.
  - rewrite run_ret. unfold record, exit_code. cbn [fst snd].
    rewrite !actions_app. cbn [actions action_of].
    rewrite !actions_app, A, A2, A3, Ac. split; reflexivity.
Qed.

(** C1: for a focus-type primary action that succeeded and a non-empty
    after set, the fallback is run exactly when the focus did not move;
    when it moved, the primary action is the only action run and [main]
    returns 0. *)
Theorem focus_action_fallback_iff_focus_unchanged :
  _is_focus_action (primary_action args) = true ->
  (actions (record (run W (main float_repr args) s0))
   = [primary_action args; fallback_action args]
   <-> focus_unchanged windows_after (_window_identity focused_before))
  /\ (~ focus_unchanged windows_after (_window_identity focused_before) ->
      actions (record (run W (main float_repr args) s0))
      = [primary_action args]
      /\ exit_code (run W (main float_repr args) s0) = 0).
Proof.
  intros F.
  destruct (run_compare_focus W args windows_after
              (_window_identity focused_before) s4)
    as (tc & Ac & Qc & Ec).
  set (needed := match _focused_window windows_after with
                 | None => true
                 | Some [] => true
                 | Some w =>
                     identity_eqb (_window_identity w)
                                  (_window_identity focused_before)
                 end) in Ec.
  assert (N : needed = true <->
              focus_unchanged windows_after (_window_identity focused_before)).
  { unfold needed, focus_unchanged.
    destruct (_focused_window windows_after) as [w|] eqn:Ew.
    - destruct (focused_window_nonempty _ _ Ew) as [NE _].
      destruct w as [|kv w]; [congruence|]. split.
      + intros H. right. eauto.
      + intros [H | (w' & H & H')]; [discriminate|].
        injection H as <-. exact H'.
    - split; auto. }
  pose proof (main_after_decision needed tc Ac) as D.
  rewrite F in D. destruct (D Ec) as [D1 D2]. clear D.
  split.
  - split.
    + intros H. apply N. destruct needed; [reflexivity|].
      destruct (D2 eq_refl) as [D3 _]. rewrite D3 in H. discriminate.
    + intros H. apply D1, N, H.
  - intros H. apply D2. destruct needed; [|reflexivity].
    exfalso. apply H, N. reflexivity.
Qed.

(** C2: for a move-type primary action that succeeded and a non-empty
    after set: when no window of the after set has the recorded
    identity, the fallback is not run and [main] returns 0; when [moved]
    is the first window of the after set with that identity, the
    fallback is run exactly when the snapshot of [moved] equals the
    snapshot taken before. *)
Theorem move_action_fallback_iff_snapshot_unchanged :
  _is_focus_action (primary_action args) = false ->
  (Forall (fun w => identity_eqb (_window_identity w)
                                 (_window_identity focused_before) = false)
          windows_after ->
   actions (record (run W (main float_repr args) s0))
   = [primary_action args]
   /\ exit_code (run W (main float_repr args) s0) = 0)
  /\ (forall earlier moved later,
         windows_after = earlier ++ moved :: later ->
         Forall (fun w => identity_eqb (_window_identity w)
                            (_window_identity focused_before) = false)
                earlier ->
         identity_eqb (_window_identity moved)
                      (_window_identity focused_before) = true ->
         (actions (record (run W (main float_repr args) s0))
          = [primary_action args; fallback_action args]
          <-> _window_snapshot float_repr moved
              = _window_snapshot float_repr focused_before)
         /\ (_window_snapshot float_repr moved
             <> _window_snapshot float_repr focused_before ->
             actions (record (run W (main float_repr args) s0))
             = [primary_action args]
             /\ exit_code (run W (main float_repr args) s0) = 0)).
Proof.
  intros F.
  destruct (run_compare_move W float_repr args windows_after
              (_window_identity focused_before)
              (_window_snapshot float_repr focused_before) s4)
    as (tc & Ac & Qc & Ec).
  set (needed := match _find_window_by_identity windows_after
                         (_window_identity focused_before) with
                 | None => false
                 | Some w =>
                     PyStr.eqb (_window_snapshot float_repr w)
                               (_window_snapshot float_repr focused_before)
                 end) in Ec.
  pose proof (main_after_decision needed tc Ac) as D.
  rewrite F in D. destruct (D Ec) as [D1 D2]. clear D.
  split.
  - intros H. apply D2. unfold needed.
    rewrite (find_window_by_identity_none _ _ H). reflexivity.
  - intros earlier moved later Hw He Hm.
    assert (N : needed = true <->
                _window_snapshot float_repr moved
                = _window_snapshot float_repr focused_before).
    { unfold needed.
      rewrite (find_window_by_identity_first _ _ _ _ _ Hw He Hm).
      apply pystr_eqb_eq. }
    split.
    + split.
      * intros H. apply N. destruct needed; [reflexivity|].
        destruct (D2 eq_refl) as [D3 _]. rewrite D3 in H. discriminate.
      * intros H. apply D1, N, H.
    + intros H. apply D2. destruct needed; [|reflexivity].
      exfalso. apply H, N. reflexivity.
Qed.

End PrimarySucceeds.

End Protocol.

(** ** The overview short-circuit and the empty before set *)

Lemma run_overview_is_open_reply (W : World) (s s' : wstate W)
      (state : list (pystr * json)) (b : bool) :
  answer W overview_query true s = (ProcCompleted (JsonText (JDict state)), s') ->
  dict_get (u "is_open") state = JBool b ->
  run W _overview_is_open s =
    (Returned (Some b),
     [Ran overview_query true (ProcCompleted (JsonText (JDict state)))],
     s').
Proof.
  intros E H. unfold _overview_is_open, _overview_state, _run_niri_json.
  cbn [bind Monad_io io_bind subprocess_run run]. rewrite E.
  cbn [ret Monad_io io_bind run]. rewrite H. reflexivity.
Qed.

Lemma run_overview_is_open_true (W : World) (s s' : wstate W)
      (t : list entry) :
  run W _overview_is_open s = (Returned (Some true), t, s') ->
  exists state,
    fst (answer W overview_query true s)
    = ProcCompleted (JsonText (JDict state))
    /\ dict_get (u "is_open") state = JBool true.
Proof.
  unfold _overview_is_open, _overview_state, _run_niri_json.
  cbn [bind Monad_io io_bind subprocess_run run].
  destruct (answer W overview_query true s) as [[| |[| |j]] s1];
    cbn [ret Monad_io uncaught io_bind run fst]; try discriminate.
  destruct j as [ |b|z|f|x|l|d]; cbn [ret Monad_io io_bind run];
    try discriminate.
  destruct (dict_get (u "is_open") d) as [ |b| | | | | ] eqn:G;
    cbn [ret Monad_io io_bind run]; try discriminate.
  intros H. injection H as -> _ _. exists d. auto.
Qed.

Lemma run_overview_is_open_returns (W : World) (s : wstate W) :
  ~ escapes_query (fst (answer W overview_query true s)) ->
  exists open t s',
    run W _overview_is_open s = (Returned open, t, s').
Proof.
  unfold escapes_query, _overview_is_open, _overview_state, _run_niri_json.
  cbn [bind Monad_io io_bind subprocess_run run].
  destruct (answer W overview_query true s) as [[| |[| |j]] s1];
    cbn [ret Monad_io uncaught io_bind run fst]; intros N;
    try (exfalso; apply N; auto; fail); eauto.
  destruct j as [ |b|z|f|x|l|d]; cbn [ret Monad_io io_bind run]; eauto.
  destruct (dict_get (u "is_open") d); cbn [ret Monad_io io_bind run]; eauto.
Qed.

Lemma main_overview_open (W : World) (float_repr : spec_float -> pystr)
      (args : Args) (s0 s1 : wstate W) (t0 : list entry) :
  run W _overview_is_open s0 = (Returned (Some true), t0, s1) ->
  actions (record (run W (main float_repr args) s0))
  = [str_or (overview_action args) (fallback_action args)]
  /\ queries (record (run W (main float_repr args) s0)) = [overview_query].
Proof.
  intros E. destruct (overview_is_open_record _ _ _ _ _ E) as [A0 Q0].
  unfold main. rewrite run_bind, E. cbv beta iota zeta.
  destruct (run_debug_print W args
              (MsgOverviewOpen (str_or (overview_action args)
                                       (fallback_action args))) s1)
    as (tp & Ep & A & Q).
  rewrite run_bind, Ep. cbv beta iota.
  pose proof (run_exit_with_action_record W
                (str_or (overview_action args) (fallback_action args)) s1)
    as R.
  destruct (run W (_run_action (str_or (overview_action args)
                                       (fallback_action args))) s1)
    as [[ok t] s2] eqn:Ea.
  destruct (run_action_actions _ _ _ _ _ _ Ea) as [A1 Q1].
  destruct (run W (exit_with_action
                     (str_or (overview_action args) (fallback_action args)))
                s1) as [[code t'] s2']. cbn [fst snd] in R. subst t'.
  unfold record. cbn [fst snd].
  rewrite !actions_app, !queries_app, A0, A, A1, Q0, Q, Q1.
  repeat split.
Qed.

Lemma main_overview_not_open (W : World) (float_repr : spec_float -> pystr)
      (args : Args) (s0 s1 : wstate W) (open : option bool)
      (t0 : list entry) :
  run W _overview_is_open s0 = (Returned open, t0, s1) ->
  open <> Some true ->
  exists later,
    queries (record (run W (main float_repr args) s0))
    = overview_query :: windows_query :: later.
Proof.
  intros E N. destruct (overview_is_open_record _ _ _ _ _ E) as [A0 Q0].
  unfold main. rewrite run_bind, E.
  assert (O : forall (X : Type) (a b : X),
             match open with Some true => a | _ => b end = b).
  { intros X a b. destruct open as [[|]|]; congruence. }
  cbv beta iota. rewrite O. rewrite run_bind.
  destruct (run W _collect_windows s1) as [[wb t1] s2] eqn:Eb.
  destruct (collect_windows_record _ _ _ _ _ Eb) as [A1 Q1].
  destruct wb as [wb|]; cbv beta iota.
  - destruct (run W _ s2) as [[code t] s'].
    exists (queries t). unfold record. cbn [fst snd].
    rewrite !queries_app, Q0, Q1. reflexivity.
  - exists []. unfold record. cbn [fst snd].
    rewrite !queries_app, Q0, Q1. reflexivity.
Qed.

(** C3, as amended: when the overview-state query returns an object
    whose [is_open] field is the boolean true, [main] runs one action,
    the overview action when one was supplied and is not the empty
    string and the fallback action otherwise, and issues no window
    query; when the query failed with an error the script catches, its
    output is not JSON, or the JSON is anything but such an object, the
    window query follows.  Nothing is said of an answer that makes
    [_run_niri_json] raise. *)
Theorem overview_open_short_circuits
        (W : World) (float_repr : spec_float -> pystr) (args : Args)
        (s0 : wstate W) :
  let reply := fst (answer W overview_query true s0) in
  let result := run W (main float_repr args) s0 in
  (forall state,
      reply = ProcCompleted (JsonText (JDict state)) ->
      dict_get (u "is_open") state = JBool true ->
      queries (record result) = [overview_query]
      /\ (forall action,
             overview_action args = Some action -> action <> [] ->
             actions (record result) = [action])
      /\ (overview_action args = None \/ overview_action args = Some [] ->
          actions (record result) = [fallback_action args]))
  /\ ((forall state,
          reply = ProcCompleted (JsonText (JDict state)) ->
          dict_get (u "is_open") state <> JBool true) ->
      ~ escapes_query reply ->
      exists later,
        queries (record result) = overview_query :: windows_query :: later).
Proof.
  cbv zeta. split.
  - intros state Er Hs.
    destruct (answer W overview_query true s0) as [r s1] eqn:E.
    simpl in Er. subst r.
    destruct (main_overview_open W float_repr args s0 s1 _
                (run_overview_is_open_reply W s0 s1 state true E Hs))
      as (A & Q).
    split; [exact Q|]. rewrite A. split.
    + intros action -> NE. unfold str_or, PyStr.is_empty.
      destruct action; [congruence | reflexivity].
    + intros [-> | ->]; reflexivity.
  - intros H N.
    destruct (run_overview_is_open_returns W s0 N) as (open & t0 & s1 & E).
    apply (main_overview_not_open W float_repr args s0 s1 open t0 E).
    intros ->. apply run_overview_is_open_true in E.
    destruct E as (state & E1 & E2). exact (H state E1 E2).
Qed.

(** X16: when the overview is not open and the first window query
    failed with an error that is caught, printed something that is not
    JSON, gave JSON of an unexpected shape or listed no window, the
    fallback action is the only action [main] runs, and [main] returns
    0 when it succeeds and 1 when it fails. *)
Theorem empty_before_runs_fallback
        (W : World) (float_repr : spec_float -> pystr) (args : Args)
        (s0 s1 s2 s3 : wstate W) (open : option bool) (t0 t2 : list entry)
        (before_reply : proc_result) (ok : bool) :
  run W _overview_is_open s0 = (Returned open, t0, s1) ->
  open <> Some true ->
  answer W windows_query true s1 = (before_reply, s2) ->
  no_windows before_reply ->
  run W (_run_action (fallback_action args)) s2 = (Returned ok, t2, s3) ->
  actions (record (run W (main float_repr args) s0)) = [fallback_action args]
  /\ exit_code (run W (main float_repr args) s0) = (if ok then 0 else 1).
Proof.
  intros E N Eb Nb Ef.
  destruct (overview_is_open_record _ _ _ _ _ E) as [A0 Q0].
  destruct (run_action_actions _ _ _ _ _ _ Ef) as [A2 Q2].
  unfold main. rewrite run_bind, E.
  assert (O : forall (X : Type) (a b : X),
             match open with Some true => a | _ => b end = b).
  { intros X a b. destruct open as [[|]|]; congruence. }
  cbv beta iota. rewrite O.
  rewrite run_bind, (collect_no_windows W _ _ _ Eb Nb). cbv beta iota.
  destruct (run_debug_print W args MsgNoWindows s2) as (tp & Ep & A & Q).
  rewrite run_bind, Ep. cbv beta iota.
  rewrite (run_exit_with_action _ _ _ _ _ _ Ef).
  unfold record, exit_code. cbn [fst snd].
  rewrite !actions_app. cbn [actions action_of].
  rewrite A0, A, A2. split; reflexivity.
Qed.

(** C7: the code on a first window query whose output cannot be decoded
    (or on which [json.loads] raises something else than
    [JSONDecodeError]): the exception leaves [_run_niri_json] and
    [main]; after the two queries no action is run, the fallback
    included, and the interpreter exits with status 1. *)
Theorem before_query_escape_is_fatal
        (W : World) (float_repr : spec_float -> pystr) (args : Args)
        (s0 s1 : wstate W) (open : option bool) (t0 : list entry) :
  run W _overview_is_open s0 = (Returned open, t0, s1) ->
  open <> Some true ->
  escapes_query (fst (answer W windows_query true s1)) ->
  value_of (run W (main float_repr args) s0) = Traceback
  /\ actions (record (run W (main float_repr args) s0)) = []
  /\ queries (record (run W (main float_repr args) s0))
     = [overview_query; windows_query]
  /\ exit_code (run W (main float_repr args) s0) = 1.
Proof.
  intros E N X.
  destruct (overview_is_open_record _ _ _ _ _ E) as [A0 Q0].
  unfold main. rewrite run_bind, E.
  assert (O : forall (X : Type) (a b : X),
             match open with Some true => a | _ => b end = b).
  { intros Y a b. destruct open as [[|]|]; congruence. }
  cbv beta iota. rewrite O. rewrite run_bind.
  assert (C : run W _collect_windows s1
              = (Traceback,
                 [Ran windows_query true
                      (fst (answer W windows_query true s1))],
                 snd (answer W windows_query true s1))).
  { unfold _collect_windows, _run_niri_json.
    cbn [bind Monad_io io_bind subprocess_run run].
    destruct (answer W windows_query true s1) as [r s2]. cbn [fst snd] in *.
    destruct X as [-> | ->]; reflexivity. }
  rewrite C. cbv beta iota.
  unfold value_of, record, exit_code. cbn [fst snd].
  rewrite !actions_app, !queries_app, A0, Q0. repeat split.
Qed.

(** C10: an [--overview-action] given as the empty string behaves as an
    absent one: [main] runs the same way in every world, and when the
    overview is open it is the fallback action that is run. *)
Theorem empty_overview_action_is_absent
        (W : World) (float_repr : spec_float -> pystr)
        (d : Direction) (primary fallback : pystr) (dbg : bool)
        (s0 : wstate W) :
  let supplied_empty :=
    {| direction := d; primary_action := primary;
       fallback_action := fallback; overview_action := Some [];
       debug := dbg |} in
  let absent :=
    {| direction := d; primary_action := primary;
       fallback_action := fallback; overview_action := None;
       debug := dbg |} in
  run W (main float_repr supplied_empty) s0 = run W (main float_repr absent) s0
  /\ (forall state,
         fst (answer W overview_query true s0)
         = ProcCompleted (JsonText (JDict state)) ->
         dict_get (u "is_open") state = JBool true ->
         actions (record (run W (main float_repr supplied_empty) s0))
         = [fallback]).
Proof.
  cbv zeta. split; [reflexivity|].
  intros state Er Hs.
  destruct (answer W overview_query true s0) as [r s1] eqn:E.
  simpl in Er. subst r.
  destruct (main_overview_open W float_repr
              {| direction := d; primary_action := primary;
                 fallback_action := fallback; overview_action := Some [];
                 debug := dbg |} s0 s1 _
              (run_overview_is_open_reply W s0 s1 state true E Hs))
    as (A & _). exact A.
Qed.

(** ** Concrete runs *)

(** C1 at work: window 7 is focused before and after
    [focus-column-right], so the fallback is run. *)
Lemma focus_unchanged_run :
  let before := [sample_window 7 true 1; sample_window 8 false 2] in
  let script :=
    [overview_reply false; windows_reply before; action_done;
     windows_reply before; action_done] in
  (actions (record (run scripted (main sample_float_repr focus_args) script))
   = [u "focus-column-right"; u "focus-workspace-down"]
   <-> focus_unchanged before (_window_identity (sample_window 7 true 1)))
  /\ (~ focus_unchanged before (_window_identity (sample_window 7 true 1)) ->
      actions (record (run scripted (main sample_float_repr focus_args)
                           script))
      = [u "focus-column-right"]
      /\ exit_code (run scripted (main sample_float_repr focus_args) script)
         = 0).
Proof.
  cbv zeta.
  eapply (focus_action_fallback_iff_focus_unchanged
            scripted sample_float_repr focus_args);
    try reflexivity; discriminate.
Defined.

(** C2 at work: after [move-window-up] window 7 is found behind window
    8, its fields in another order and its title changed; its snapshot
    is the one taken before, so the fallback is run. *)
Lemma move_unchanged_run :
  let before := [sample_window 7 true 1; sample_window 8 false 2] in
  let moved := sample_window_reordered 7 true 1 in
  let script :=
    [overview_reply false; windows_reply before; action_done;
     windows_reply [sample_window 8 false 2; moved]; action_done] in
  (actions (record (run scripted (main sample_float_repr move_args) script))
   = [u "move-window-up"; u "move-window-to-workspace-up"]
   <-> _window_snapshot sample_float_repr moved
       = _window_snapshot sample_float_repr (sample_window 7 true 1))
  /\ (_window_snapshot sample_float_repr moved
      <> _window_snapshot sample_float_repr (sample_window 7 true 1) ->
      actions (record (run scripted (main sample_float_repr move_args)
                           script))
      = [u "move-window-up"]
      /\ exit_code (run scripted (main sample_float_repr move_args) script)
         = 0).
Proof.
  cbv zeta.
  edestruct (move_action_fallback_iff_snapshot_unchanged
               scripted sample_float_repr move_args
               [overview_reply false;
                windows_reply [sample_window 7 true 1; sample_window 8 false 2];
                action_done;
                windows_reply [sample_window 8 false 2;
                               sample_window_reordered 7 true 1];
                action_done]) as [_ H];
    [reflexivity | | reflexivity | reflexivity | reflexivity
     | reflexivity | reflexivity | | reflexivity | ];
    [discriminate | discriminate | ].
  apply (H [sample_window 8 false 2] (sample_window_reordered 7 true 1) []);
    [reflexivity | repeat constructor | reflexivity].
Defined.

(** C3 at work: the overview is open and an overview action was given;
    the overview is closed. *)
Lemma overview_open_run :
  let script := [overview_reply true; action_done] in
  let closed := [overview_reply false; windows_reply []; action_done] in
  queries (record (run scripted (main sample_float_repr move_args) script))
  = [overview_query]
  /\ actions (record (run scripted (main sample_float_repr move_args) script))
     = [u "move-workspace-up"]
  /\ exists later,
       queries (record (run scripted (main sample_float_repr move_args)
                            closed))
       = overview_query :: windows_query :: later.
Proof.
  cbv zeta.
  destruct (overview_open_short_circuits scripted sample_float_repr move_args
              [overview_reply true; action_done]) as [H _].
  destruct (H [(u "is_open", JBool true)] eq_refl eq_refl) as (Q & A & _).
  split; [exact Q|].
  split; [apply (A (u "move-workspace-up") eq_refl); discriminate|].
  apply (proj2 (overview_open_short_circuits
                  scripted sample_float_repr move_args
                  [overview_reply false; windows_reply []; action_done])).
  - intros state E. injection E as <-. discriminate.
  - intros [E | E]; discriminate E.
Defined.

(** C3 as stated fails when the overview action is the empty string: it
    was supplied, yet the action that is run is the fallback. *)
Lemma overview_action_empty_string_not_run :
  let args :=
    {| direction := Down;
       primary_action := u "focus-window-down";
       fallback_action := u "focus-workspace-down";
       overview_action := Some [];
       debug := false |} in
  let script := [overview_reply true; action_done] in
  overview_action args = Some []
  /\ actions (record (run scripted (main sample_float_repr args) script))
     = [u "focus-workspace-down"]
  /\ actions (record (run scripted (main sample_float_repr args) script))
     <> [[]].
Proof.
  cbv zeta. split; [reflexivity|]. split; [reflexivity|].
  vm_compute. discriminate.
Qed.

(** C4 at work: the primary action cannot be run. *)
Lemma primary_failure_run :
  let before := [sample_window 7 true 1; sample_window 8 false 2] in
  let script := [overview_reply false; windows_reply before; ProcRaised] in
  exit_code (run scripted (main sample_float_repr focus_args) script) = 1
  /\ actions (record (run scripted (main sample_float_repr focus_args) script))
     = [u "focus-column-right"]
  /\ queries (record (run scripted (main sample_float_repr focus_args) script))
     = [overview_query; windows_query].
Proof.
  cbv zeta.
  eapply (primary_failure_is_fatal scripted sample_float_repr focus_args);
    try reflexivity; discriminate.
Defined.

(** C5 at work: neither [persistent_id] nor [window_id] is present, and
    [id] holds an integer. *)
Lemma window_identity_run :
  _window_identity (sample_window 7 true 1) = [(u "id", JInt 7)].
Proof.
  apply (proj1 (window_identity_first_accepted (sample_window 7 true 1))
               [u "persistent_id"; u "window_id"] (u "id")
               [u "surface_id"; u "toplevel_id"; u "wayland_id"]).
  - reflexivity.
  - repeat constructor; intros [[? H] | [[? H] | [? H]]]; discriminate.
  - right; left. exists 7. reflexivity.
Defined.

Ltac decide_key key C :=
  repeat match goal with
    | |- context [PyStr.eqb ?k key] =>
        let E := fresh "E" in
        destruct (PyStr.eqb k key) eqn:E;
        [ apply pystr_eqb_eq in E; subst key;
          first [ vm_compute in C; discriminate C
                | vm_compute; apply same_value ]
        | ]
    end.

Ltac distinct_keys :=
  unfold keys_distinct;
  repeat (apply NoDup_cons; [vm_compute; intuition discriminate|]);
  apply NoDup_nil.

(** C6 at work: two windows that hold the same layout fields in another
    order, also inside the layout, and differ in their title and focus
    flag. *)
Lemma window_snapshot_run :
  _window_snapshot sample_float_repr (sample_window 7 true 1)
  = _window_snapshot sample_float_repr (sample_window_reordered 7 false 1).
Proof.
  apply window_snapshot_order_independent.
  - split; [distinct_keys|]. simpl. repeat split. distinct_keys.
  - distinct_keys.
  - apply same_value.
  - apply (same_dict _ [(u "tile", JInt 1); (u "pos", JList [JInt 1; JInt 1])]).
    + repeat constructor.
    + apply perm_swap.
  - intros key C. unfold sample_window, sample_window_reordered.
    cbn [lookup]. decide_key key C. exact I.
Defined.

(** X16 at work: the window query returns an empty list. *)
Lemma empty_before_run :
  let script := [overview_reply false; windows_reply []; action_done] in
  actions (record (run scripted (main sample_float_repr focus_args) script))
  = [u "focus-workspace-down"]
  /\ exit_code (run scripted (main sample_float_repr focus_args) script) = 0.
Proof.
  cbv zeta.
  eapply (empty_before_runs_fallback scripted sample_float_repr focus_args
            _ _ _ _ _ _ _ (windows_reply []) true).
  - reflexivity.
  - discriminate.
  - reflexivity.
  - apply (empty_list []). reflexivity.
  - reflexivity.
Defined.

(** C7 at work: the overview is closed and the output of the first
    window query cannot be decoded. *)
Lemma before_query_escape_run :
  let script := [overview_reply false; ProcEscaped; action_done] in
  value_of (run scripted (main sample_float_repr focus_args) script)
  = Traceback
  /\ actions (record (run scripted (main sample_float_repr focus_args) script))
     = []
  /\ queries (record (run scripted (main sample_float_repr focus_args) script))
     = [overview_query; windows_query]
  /\ exit_code (run scripted (main sample_float_repr focus_args) script) = 1.
Proof.
  cbv zeta.
  eapply (before_query_escape_is_fatal scripted sample_float_repr focus_args).
  - reflexivity.
  - discriminate.
  - left. reflexivity.
Defined.

(** C8 at work: the second window query fails. *)
Lemma unobservable_after_run :
  let before := [sample_window 7 true 1; sample_window 8 false 2] in
  let script :=
    [overview_reply false; windows_reply before; action_done; ProcRaised] in
  exit_code (run scripted (main sample_float_repr focus_args) script) = 1
  /\ actions (record (run scripted (main sample_float_repr focus_args) script))
     = [u "focus-column-right"].
Proof.
  cbv zeta.
  eapply (unobservable_after_is_failure scripted sample_float_repr focus_args);
    try reflexivity; try discriminate.
  apply query_failed.
Defined.

(** C9 at work: of two focused windows the earlier one is taken, and a
    window whose flag is [0] is passed over. *)
Lemma focused_window_run :
  let unfocused := [(u "id", JInt 6); (u "is_focused", JInt 0)] in
  _focused_window
    [unfocused; sample_window 7 true 1; sample_window 8 true 2]
  = Some (sample_window 7 true 1).
Proof.
  cbv zeta.
  apply (proj2 (proj1 (focused_window_first_truthy
                         [[(u "id", JInt 6); (u "is_focused", JInt 0)];
                          sample_window 7 true 1; sample_window 8 true 2])
                      (sample_window 7 true 1))).
  exists [[(u "id", JInt 6); (u "is_focused", JInt 0)]],
         [sample_window 8 true 2].
  split; [reflexivity|]. split; [|reflexivity].
  constructor; [|constructor].
  apply (proj1 (proj2 (proj2 (focused_window_first_truthy [])))
           [(u "id", JInt 6); (u "is_focused", JInt 0)] (JInt 0)).
  - reflexivity.
  - right; right; left. reflexivity.
Defined.

(** C10 at work: the overview is open and [--overview-action] is the
    empty string. *)
Lemma empty_overview_action_run :
  let args :=
    {| direction := Down;
       primary_action := u "focus-window-down";
       fallback_action := u "focus-workspace-down";
       overview_action := Some [];
       debug := true |} in
  actions (record (run scripted (main sample_float_repr args)
                       [overview_reply true; action_done]))
  = [u "focus-workspace-down"].
Proof.
  cbv zeta.
  apply (proj2 (empty_overview_action_is_absent
                  scripted sample_float_repr Down (u "focus-window-down")
                  (u "focus-workspace-down") true
                  [overview_reply true; action_done])
               [(u "is_open", JBool true)] eq_refl eq_refl).
Defined.

(** * Further properties of the script *)

(** ** The queries *)

Lemma run_niri_json_reading (W : World) (command : list pystr)
      (s : wstate W) :
  run W (_run_niri_json command) s =
    (match fst (answer W command true s) with
     | ProcRaised | ProcCompleted NotJson => Returned JNull
     | ProcEscaped | ProcCompleted JsonRaises => Traceback
     | ProcCompleted (JsonText j) => Returned j
     end,
     [Ran command true (fst (answer W command true s))],
     snd (answer W command true s)).
Proof.
  unfold _run_niri_json. cbn [bind Monad_io io_bind subprocess_run run].
  destruct (answer W command true s) as [[| |[| |j]] s1]; reflexivity.
Qed.

Lemma has_windows_not_escapes (r : proc_result) :
  has_windows r -> ~ escapes_query r.
Proof.
  intros [(l & -> & _) | (d & l & -> & _)] [H | H]; discriminate H.
Qed.

Lemma no_windows_not_escapes (r : proc_result) :
  no_windows r -> ~ escapes_query r.
Proof. intros H [E | E]; rewrite E in H; inversion H. Qed.

Lemma has_windows_not_no_windows (r : proc_result) :
  has_windows r -> ~ no_windows r.
Proof.
  intros [(l & -> & N) | (d & l & -> & G & N)] H;
    inversion H as [ | |j Hl Hd|l0 Hl|d0 l0 Hd Hl]; subst.
  - apply (Hl l). reflexivity.
  - contradiction.
  - apply (Hd d l eq_refl G).
  - rewrite G in Hd. injection Hd as <-. contradiction.
Qed.

Ltac never_escapes :=
  split; [discriminate | let H := fresh in intros [H | H]; discriminate H].

Ltac never_has_windows :=
  split;
  [ let H := fresh in intros (? & ? & H); discriminate H
  | let H := fresh in
    intros [(? & H & _) | (? & ? & H & _)]; discriminate H ].

Lemma collect_windows_reading (W : World) (s s' : wstate W)
      (o : outcome (list Window)) (t : list entry) :
  run W _collect_windows s = (o, t, s') ->
  t = [Ran windows_query true (fst (answer W windows_query true s))]
  /\ s' = snd (answer W windows_query true s)
  /\ (o = Traceback <-> escapes_query (fst (answer W windows_query true s)))
  /\ (o = Returned [] <-> no_windows (fst (answer W windows_query true s)))
  /\ ((exists w ws, o = Returned (w :: ws))
      <-> has_windows (fst (answer W windows_query true s))).
Proof.
  unfold _collect_windows. rewrite run_bind, run_niri_json_reading.
  destruct (answer W windows_query true s) as [r s1]. cbn [fst snd].
  destruct r as [| |[| |j]]; cbv beta iota.
  - rewrite run_ret. intros E; injection E as <- <- <-.
    split; [reflexivity|]. split; [reflexivity|].
    split; [never_escapes|]. split; [|never_has_windows].
    split; auto using query_failed.
  - intros E; injection E as <- <- <-.
    split; [reflexivity|]. split; [reflexivity|].
    split; [split; [left; reflexivity | reflexivity]|].
    split; [|never_has_windows].
    split; [discriminate | intros H; inversion H].
  - rewrite run_ret. intros E; injection E as <- <- <-.
    split; [reflexivity|]. split; [reflexivity|].
    split; [never_escapes|]. split; [|never_has_windows].
    split; auto using malformed_json.
  - intros E; injection E as <- <- <-.
    split; [reflexivity|]. split; [reflexivity|].
    split; [split; [right; reflexivity | reflexivity]|].
    split; [|never_has_windows].
    split; [discriminate | intros H; inversion H].
  - destruct j as [ |b|z|f|x|l|d].
    1-5: rewrite run_ret; intros E; injection E as <- <- <-;
      (split; [reflexivity|]); (split; [reflexivity|]);
      (split; [never_escapes|]); (split; [|never_has_windows]);
      split; auto; intros _;
      apply unexpected_shape; intros; discriminate.
    + rewrite run_ret. intros E; injection E as <- <- <-.
      split; [reflexivity|]. split; [reflexivity|].
      split; [never_escapes|]. split; split.
      * intros H. injection H as H. apply empty_list, H.
      * intros H. inversion H as [ | |j Hl Hd|l0 Hl|d l0 Hd Hl]; subst.
        -- exfalso. apply (Hl l). reflexivity.
        -- rewrite Hl. reflexivity.
      * intros (w & ws & H). injection H as H. left. exists l.
        split; [reflexivity|]. rewrite H. discriminate.
      * intros [(l0 & E & N) | (d0 & l0 & E & _)]; [|discriminate E].
        injection E as <-. destruct (only_dicts l) as [|w ws]; [congruence|].
        eauto.
    + destruct (dict_get (u "windows") d) as [ |b|z|f|x|l|d'] eqn:G.
      1-5,7: rewrite run_ret; intros E; injection E as <- <- <-;
        (split; [reflexivity|]); (split; [reflexivity|]);
        (split; [never_escapes|]); split; split;
        [ intros _; apply unexpected_shape; [intros; discriminate|];
          intros d0 l0 E0; injection E0 as <-; rewrite G; discriminate
        | reflexivity
        | intros (? & ? & H); discriminate H
        | intros [(l0 & E & _) | (d0 & l0 & E & G' & _)];
          [discriminate E | injection E as <-; rewrite G in G';
                            discriminate G'] ].
      rewrite run_ret. intros E; injection E as <- <- <-.
      split; [reflexivity|]. split; [reflexivity|].
      split; [never_escapes|]. split; split.
      * intros H. injection H as H. apply (empty_wrapped_list d l G H).
      * intros H. inversion H as [ | |j Hl Hd|l0 Hl|d0 l0 Hd Hl]; subst.
        -- exfalso. apply (Hd d l eq_refl G).
        -- rewrite G in Hd. injection Hd as <-. rewrite Hl. reflexivity.
      * intros (w & ws & H). injection H as H. right. exists d, l.
        split; [reflexivity|]. split; [exact G|]. rewrite H. discriminate.
      * intros [(l0 & E & _) | (d0 & l0 & E & G' & N)]; [discriminate E|].
        injection E as <-. rewrite G in G'. injection G' as <-.
        destruct (only_dicts l) as [|w ws]; [congruence|]. eauto.
Qed.

(** X1: [_collect_windows] issues the one window query.  It raises
    exactly when [subprocess.run] or [json.loads] raises an exception
    that [_run_niri_json] does not catch; it returns no window exactly
    when the query failed with an error that is caught, its output is
    not JSON, the JSON is neither a list nor an object holding a list
    under [windows], or that list holds no object; and it returns
    windows exactly when the answer is such a list that holds an
    object. *)
Theorem collect_windows_empty_iff (W : World) (s : wstate W) :
  let reply := fst (answer W windows_query true s) in
  record_of (run W _collect_windows s) = [Ran windows_query true reply]
  /\ (value_of (run W _collect_windows s) = Traceback
      <-> escapes_query reply)
  /\ (value_of (run W _collect_windows s) = Returned []
      <-> no_windows reply)
  /\ ((exists w ws, value_of (run W _collect_windows s) = Returned (w :: ws))
      <-> has_windows reply).
Proof.
  cbv zeta. destruct (run W _collect_windows s) as [[ws t] s'] eqn:E.
  destruct (collect_windows_reading W s s' ws t E) as (Et & _ & H).
  split; [exact Et | exact H].
Qed.

(** X2: a list wrapped in an object under the key [windows] is read as
    the bare list is, whatever else the object holds; of the list
    exactly the objects are kept, in their order. *)
Theorem collect_windows_wrapped (W : World) (s : wstate W)
        (d : list (pystr * json)) (l : list json) :
  (fst (answer W windows_query true s) = ProcCompleted (JsonText (JList l)) ->
   value_of (run W _collect_windows s) = Returned (only_dicts l))
  /\ (fst (answer W windows_query true s)
      = ProcCompleted (JsonText (JDict d)) ->
      lookup (u "windows") d = Some (JList l) ->
      value_of (run W _collect_windows s) = Returned (only_dicts l))
  /\ map JDict (only_dicts l) = filter is_object l.
Proof.
  unfold _collect_windows, value_of. rewrite run_bind, run_niri_json_reading.
  destruct (answer W windows_query true s) as [r s1]. cbn [fst snd].
  split; [|split].
  - intros ->. reflexivity.
  - intros -> H. cbv beta iota. unfold dict_get. rewrite H. reflexivity.
  - induction l as [|[ |b|z|f|x|l'|d'] l IH]; simpl; auto.
    rewrite IH. reflexivity.
Qed.

Lemma overview_is_open_reading_cases (W : World) (s s' : wstate W)
      (o : outcome (option bool)) (t : list entry) :
  run W _overview_is_open s = (o, t, s') ->
  t = [Ran overview_query true (fst (answer W overview_query true s))]
  /\ s' = snd (answer W overview_query true s)
  /\ (o = Traceback <-> escapes_query (fst (answer W overview_query true s)))
  /\ (forall b,
         o = Returned (Some b)
         <-> exists state,
               fst (answer W overview_query true s)
               = ProcCompleted (JsonText (JDict state))
               /\ lookup (u "is_open") state = Some (JBool b)).
Proof.
  unfold _overview_is_open, _overview_state.
  rewrite !run_bind, run_niri_json_reading.
  destruct (answer W overview_query true s) as [r s1]. cbn [fst snd].
  destruct r as [| |[| |j]]; cbv beta iota; rewrite ?run_ret; cbv beta iota;
    rewrite ?run_ret; cbn [fst snd app].
  1,3: intros E; injection E as <- <- <-;
    (split; [reflexivity|]); (split; [reflexivity|]);
    (split; [never_escapes|]); intros b0; split;
    [discriminate | intros (st & E & _); discriminate].
  1: intros E; injection E as <- <- <-;
    (split; [reflexivity|]); (split; [reflexivity|]);
    (split; [split; [left; reflexivity | reflexivity]|]); intros b0; split;
    [discriminate | intros (st & E & _); discriminate].
  1: intros E; injection E as <- <- <-;
    (split; [reflexivity|]); (split; [reflexivity|]);
    (split; [split; [right; reflexivity | reflexivity]|]); intros b0; split;
    [discriminate | intros (st & E & _); discriminate].
  destruct j as [ |b'|z|f|x|l|d]; rewrite ?run_ret; cbv beta iota;
    rewrite ?run_ret; cbn [fst snd app].
  1-6: intros E; injection E as <- <- <-;
    (split; [reflexivity|]); (split; [reflexivity|]);
    (split; [never_escapes|]); intros b0; split;
    [discriminate | intros (st & E & _); discriminate].
  unfold dict_get.
  destruct (lookup (u "is_open") d) as [[ |b'|z|f|x|l|d']|] eqn:G;
    rewrite run_ret; cbn [fst snd app];
    intros E; injection E as <- <- <-;
    (split; [reflexivity|]); (split; [reflexivity|]);
    (split; [never_escapes|]); intros b0; split;
    try discriminate;
    try (intros (st & E & H); injection E as <-; rewrite G in H;
         discriminate).
  - intros E. injection E as ->. exists d. auto.
  - intros (st & E & H). injection E as <-. rewrite G in H.
    injection H as ->. reflexivity.
Qed.

(** X3: [_overview_is_open] issues the one overview query.  It raises
    exactly when [subprocess.run] or [json.loads] raises an exception
    that [_run_niri_json] does not catch; it returns a boolean exactly
    when the answer is an object whose [is_open] field is that boolean;
    and it returns [None] on every other answer: a query that failed
    with an error that is caught, output that is not JSON, another
    shape, or an [is_open] that is missing or not a boolean. *)
Theorem overview_is_open_reading (W : World) (s : wstate W) :
  let reply := fst (answer W overview_query true s) in
  let reports (b : bool) :=
    exists state,
      reply = ProcCompleted (JsonText (JDict state))
      /\ lookup (u "is_open") state = Some (JBool b) in
  record_of (run W _overview_is_open s) = [Ran overview_query true reply]
  /\ (value_of (run W _overview_is_open s) = Traceback
      <-> escapes_query reply)
  /\ (forall b,
         value_of (run W _overview_is_open s) = Returned (Some b)
         <-> reports b)
  /\ (value_of (run W _overview_is_open s) = Returned None
      <-> ~ escapes_query reply /\ forall b, ~ reports b).
Proof.
  cbv zeta. unfold value_of, record_of.
  destruct (run W _overview_is_open s) as [[o t] s'] eqn:E.
  destruct (overview_is_open_reading_cases W s s' o t E) as (-> & _ & X & B).
  cbn [fst snd]. split; [reflexivity|]. split; [exact X|].
  split; [exact B|]. split.
  - intros ->. split.
    + intros H. apply X in H. discriminate H.
    + intros b H. apply B in H. discriminate H.
  - intros [NX NB]. destruct o as [[b|]|].
    + exfalso. apply (NB b), B. reflexivity.
    + reflexivity.
    + exfalso. apply NX, X. reflexivity.
Qed.

(** ** Matching windows by identity *)

(** X4: [_find_window_by_identity] returns the first window, in the
    order of the list, whose identity equals the given one, and nothing
    exactly when no window has that identity. *)
Theorem find_window_by_identity_first_match (windows : list Window)
        (identity : Identity) :
  (forall w,
      _find_window_by_identity windows identity = Some w <->
      exists earlier later,
        windows = earlier ++ w :: later
        /\ Forall (fun x => identity_eqb (_window_identity x) identity = false)
                  earlier
        /\ identity_eqb (_window_identity w) identity = true)
  /\ (_find_window_by_identity windows identity = None <->
      Forall (fun x => identity_eqb (_window_identity x) identity = false)
             windows).
Proof.
  split.
  - intros w. split.
    + induction windows as [|x l IH]; simpl; [discriminate|].
      destruct (identity_eqb (_window_identity x) identity) eqn:E; intros H.
      * injection H as <-. exists [], l. auto.
      * destruct (IH H) as (b & a & -> & Hb & Hw).
        exists (x :: b), a. auto.
    + intros (b & a & E & Hb & Hw).
      apply (find_window_by_identity_first _ _ _ _ _ E Hb Hw).
  - split; [|apply find_window_by_identity_none].
    induction windows as [|x l IH]; simpl; [constructor|].
    destruct (identity_eqb (_window_identity x) identity) eqn:E;
      [discriminate|]. auto.
Qed.

Lemma window_identity_by (win : Window) (key : pystr) :
  identified_by win key -> _window_identity win = [(key, dict_get key win)].
Proof.
  intros (before & after & E & Hb & Hk). unfold _window_identity.
  rewrite E, (first_candidate_split win before key after Hb Hk). reflexivity.
Qed.

Lemma window_identity_composite (win : Window) :
  unidentified win ->
  _window_identity win = map (fun key => (key, dict_get key win)) fallback_keys.
Proof.
  intros H. unfold _window_identity.
  rewrite (first_candidate_none win candidate_keys H). reflexivity.
Qed.

Lemma identity_eqb_one_many (x y z : pystr * json) (l : Identity) :
  identity_eqb [x] (y :: z :: l) = false.
Proof.
  destruct x as [k v], y as [k' v'], z as [k2 v2]. cbn [identity_eqb].
  apply andb_false_r.
Qed.

Lemma identity_eqb_many_one (x y z : pystr * json) (l : Identity) :
  identity_eqb (y :: z :: l) [x] = false.
Proof.
  destruct x as [k v], y as [k' v'], z as [k2 v2]. cbn [identity_eqb].
  apply andb_false_r.
Qed.

(** X5: two windows identified by the same priority field match exactly
    when the values of that field are equal, whatever their other
    fields hold; windows identified by different priority fields never
    match; and a window identified by a priority field never matches one
    that falls back to the composite. *)
Theorem identity_match_by_field (w1 w2 : Window) (k1 k2 : pystr) :
  identified_by w1 k1 ->
  (identified_by w2 k1 ->
   identity_eqb (_window_identity w1) (_window_identity w2)
   = py_eqb (dict_get k1 w1) (dict_get k1 w2))
  /\ (identified_by w2 k2 -> k1 <> k2 ->
      identity_eqb (_window_identity w1) (_window_identity w2) = false)
  /\ (unidentified w2 ->
      identity_eqb (_window_identity w1) (_window_identity w2) = false
      /\ identity_eqb (_window_identity w2) (_window_identity w1) = false).
Proof.
  intros H1. rewrite (window_identity_by w1 k1 H1). split; [|split].
  - intros H2. rewrite (window_identity_by w2 k1 H2). simpl.
    rewrite pystr_eqb_refl, andb_true_r. reflexivity.
  - intros H2 N. rewrite (window_identity_by w2 k2 H2). simpl.
    apply pystr_eqb_neq in N. rewrite N. reflexivity.
  - intros H2. rewrite (window_identity_composite w2 H2).
    split; [apply identity_eqb_one_many | apply identity_eqb_many_one].
Qed.

Lemma window_identity_refl (win : Window) :
  well_formed (JDict win) ->
  identity_eqb (_window_identity win) (_window_identity win) = true.
Proof.
  intros WF. apply identity_eqb_refl. unfold _window_identity.
  destruct (first_candidate_shape win candidate_keys) as [E | [k E]];
    rewrite E; repeat constructor; simpl;
    apply dict_get_well_formed; exact WF.
Qed.

(** ** The paths of [main] *)

Lemma effects_app (t t' : list entry) :
  effects (t ++ t') = effects t ++ effects t'.
Proof.
  induction t as [|[argv c r|ms|m] t IH]; simpl; rewrite ?IH; reflexivity.
Qed.

Lemma actions_effects (t : list entry) : actions (effects t) = actions t.
Proof.
  induction t as [|[argv c r|ms|m] t IH]; simpl; rewrite ?IH; reflexivity.
Qed.

Lemma queries_effects (t : list entry) : queries (effects t) = queries t.
Proof.
  induction t as [|[argv [|] r|ms|m] t IH]; simpl; rewrite ?IH; reflexivity.
Qed.

Lemma actions_of_effects (t l : list entry) :
  effects t = l -> actions t = actions l.
Proof. intros <-. symmetry. apply actions_effects. Qed.

Lemma queries_of_effects (t l : list entry) :
  effects t = l -> queries t = queries l.
Proof. intros <-. symmetry. apply queries_effects. Qed.

Lemma effects_debug_line (args : Args) (m : debug_msg) :
  effects (debug_line args m) = [].
Proof. unfold debug_line. destruct (debug args); reflexivity. Qed.

Lemma run_debug_line (W : World) (args : Args) (m : debug_msg)
      (s : wstate W) :
  run W (debug_print args m) s = (Returned tt, debug_line args m, s).
Proof. unfold debug_print, debug_line. destruct (debug args); reflexivity. Qed.

Lemma run_action_reading (W : World) (action : pystr) (s : wstate W) :
  run W (_run_action action) s =
    (match fst (answer W [u "niri"; u "msg"; u "action"; action] false s) with
     | ProcCompleted _ => Returned true
     | ProcRaised => Returned false
     | ProcEscaped => Traceback
     end,
     [action_entry action
        (fst (answer W [u "niri"; u "msg"; u "action"; action] false s))],
     snd (answer W [u "niri"; u "msg"; u "action"; action] false s)).
Proof. apply run_action_record. Qed.

Lemma run_print_exit (W : World) (args : Args) (m : debug_msg)
      (action : pystr) (s : wstate W) :
  run W (debug_print args m ;; exit_with_action action)%monad s =
    (ends_with
       (fst (answer W [u "niri"; u "msg"; u "action"; action] false s)),
     debug_line args m
       ++ [action_entry action
             (fst (answer W [u "niri"; u "msg"; u "action"; action] false s))],
     snd (answer W [u "niri"; u "msg"; u "action"; action] false s)).
Proof.
  rewrite run_bind, run_debug_line. cbv beta iota.
  unfold exit_with_action. rewrite run_bind, run_action_reading.
  destruct (fst (answer W _ false s)); cbv beta iota;
    rewrite ?run_ret, ?app_nil_r; reflexivity.
Qed.

Lemma overview_is_open_trace (W : World) (s s' : wstate W)
      (open : outcome (option bool)) (t : list entry) :
  run W _overview_is_open s = (open, t, s') ->
  t = [Ran overview_query true (fst (answer W overview_query true s))].
Proof.
  intros E. apply (overview_is_open_reading_cases W s s' open t E).
Qed.

Lemma run_compare_focus_line (W : World) (args : Args)
      (windows_after : list Window) (focused_identity : Identity)
      (s : wstate W) :
  exists m,
    run W (compare_focus args windows_after focused_identity) s =
      (Returned
         match _focused_window windows_after with
         | None => true
         | Some [] => true
         | Some w => identity_eqb (_window_identity w) focused_identity
         end, debug_line args m, s).
Proof.
  unfold compare_focus. cbv zeta.
  destruct (_focused_window windows_after) as [[|kv w]|]; eexists;
    rewrite run_bind, run_debug_line, run_ret, app_nil_r; reflexivity.
Qed.

Lemma run_compare_move_line (W : World) (float_repr : spec_float -> pystr)
      (args : Args) (windows_after : list Window)
      (focused_identity : Identity) (before_snapshot : pystr)
      (s : wstate W) :
  exists m,
    run W (compare_move float_repr args windows_after focused_identity
                        before_snapshot) s =
      (Returned
         match _find_window_by_identity windows_after focused_identity with
         | None => false
         | Some w => PyStr.eqb (_window_snapshot float_repr w) before_snapshot
         end, debug_line args m, s).
Proof.
  unfold compare_move. cbv zeta. eexists.
  rewrite run_bind, run_debug_line, run_ret, app_nil_r. reflexivity.
Qed.

Ltac read_effects :=
  unfold exit_code, record, value_of; cbn [fst snd];
  rewrite ?effects_app, ?effects_debug_line; cbn [effects app];
  rewrite ?effects_app, ?effects_debug_line; cbn [effects app];
  try reflexivity.

Ltac fallback_only_path :=
  rewrite run_print_exit; cbv beta iota;
  eapply path_fallback_only; read_effects.

Lemma main_paths (W : World) (float_repr : spec_float -> pystr)
      (args : Args) (s0 : wstate W) :
  main_path W args (run W (main float_repr args) s0).
Proof.
  unfold main. rewrite run_bind.
  destruct (run W _overview_is_open s0) as [[ov t0] s1] eqn:E0.
  destruct (overview_is_open_reading_cases W s0 s1 ov t0 E0)
    as (-> & _ & X0 & _).
  clear E0. destruct ov as [ov|]; cbv beta iota;
    [|eapply path_overview_escaped;
      [read_effects | apply X0; reflexivity | reflexivity]].
  clear X0.
  assert (Rest :
    main_path W args
      (let '(b, t', s2) :=
         run W
           (windows_before <- _collect_windows ;;
            match windows_before with
            | [] =>
                debug_print args MsgNoWindows ;;
                exit_with_action (fallback_action args)
            | _ =>
            match _focused_window windows_before with
            | None | Some [] =>
                debug_print args MsgNoFocused ;;
                exit_with_action (fallback_action args)
            | Some focused_before =>
            if truthy (dict_get (u "is_floating") focused_before) then
                debug_print args MsgFloating ;;
                exit_with_action (fallback_action args)
            else
            let focused_identity := _window_identity focused_before in
            let before_snapshot :=
              _window_snapshot float_repr focused_before in
            let primary_is_focus :=
              _is_focus_action (primary_action args) in
            debug_print args
              (MsgRunPrimary (primary_action args) (direction args)) ;;
            ok <- _run_action (primary_action args) ;;
            if negb ok then
                debug_print args MsgPrimaryFailed ;;
                ret 1
            else
            time_sleep 10 ;;
            windows_after <- _collect_windows ;;
            match windows_after with
            | [] =>
                debug_print args MsgRequeryFailed ;;
                ret 1
            | _ =>
            fallback_needed <-
              (if primary_is_focus
               then compare_focus args windows_after focused_identity
               else compare_move float_repr args windows_after
                                 focused_identity before_snapshot) ;;
            if fallback_needed : bool then
                debug_print args (MsgRunFallback (fallback_action args)) ;;
                exit_with_action (fallback_action args)
            else ret 0
            end end end)%monad s1 in
       (b, [Ran overview_query true (fst (answer W overview_query true s0))]
             ++ t', s2))).
  { rewrite run_bind.
    destruct (run W _collect_windows s1) as [[wb t1] s2] eqn:E1.
    destruct (collect_windows_reading W s1 s2 wb t1 E1) as (-> & _ & X1 & _).
    clear E1. destruct wb as [wb|]; cbv beta iota;
      [|eapply path_before_escaped;
        [read_effects | apply X1; reflexivity | reflexivity]].
    clear X1.
    destruct wb as [|w0 ws]; [fallback_only_path|].
    destruct (_focused_window (w0 :: ws)) as [[|kv fb]|];
      [fallback_only_path| |fallback_only_path].
    destruct (truthy (dict_get (u "is_floating") (kv :: fb)));
      [fallback_only_path|].
    cbv zeta. rewrite run_bind, run_debug_line. cbv beta iota.
    rewrite run_bind, run_action_reading.
    destruct (answer W [u "niri"; u "msg"; u "action"; primary_action args]
                     false s2) as [rp s3]. cbn [fst snd].
    destruct rp as [| |out]; cbv beta iota; cbn [negb]; cbv iota.
    { rewrite run_bind, run_debug_line, run_ret. cbv beta iota.
      eapply path_primary_failed; [read_effects | left; reflexivity
                                   | reflexivity]. }
    { eapply path_primary_failed; [read_effects | right; reflexivity
                                   | reflexivity]. }
    rewrite run_bind.
    change (run W (time_sleep 10) s3)
      with (@Returned unit tt, [Slept 10], elapse W 10 s3).
    cbv beta iota. rewrite run_bind.
    destruct (run W _collect_windows (elapse W 10 s3)) as [[wa t3] s4] eqn:E3.
    destruct (collect_windows_reading W _ s4 wa t3 E3)
      as (-> & _ & X3 & N3 & H3).
    clear E3. destruct wa as [wa|]; cbv beta iota;
      [|eapply path_after_escaped;
        [read_effects | apply X3; reflexivity | reflexivity]].
    destruct wa as [|w1 wa].
    { rewrite run_bind, run_debug_line, run_ret. cbv beta iota.
      eapply path_unobservable; [read_effects | apply N3; reflexivity
                                 | reflexivity]. }
    assert (NE : has_windows
                   (fst (answer W windows_query true (elapse W 10 s3)))).
    { apply H3. eauto. }
    rewrite run_bind.
    assert (C : exists needed m,
               run W
                 (if _is_focus_action (primary_action args)
                  then compare_focus args (w1 :: wa)
                         (_window_identity (kv :: fb))
                  else compare_move float_repr args (w1 :: wa)
                         (_window_identity (kv :: fb))
                         (_window_snapshot float_repr (kv :: fb))) s4
               = (Returned needed, debug_line args m, s4)).
    { destruct (_is_focus_action (primary_action args)).
      - destruct (run_compare_focus_line W args (w1 :: wa)
                    (_window_identity (kv :: fb)) s4) as [m E]. eauto.
      - destruct (run_compare_move_line W float_repr args (w1 :: wa)
                    (_window_identity (kv :: fb))
                    (_window_snapshot float_repr (kv :: fb)) s4) as [m E].
        eauto. }
    destruct C as (needed & m & ->). cbv beta iota.
    destruct needed.
    - rewrite run_print_exit. cbv beta iota.
      eapply path_primary_then_fallback; [read_effects | exact NE
                                          | reflexivity].
    - rewrite run_ret.
      eapply path_primary_sufficed; [read_effects | exact NE | reflexivity]. }
  destruct ov as [[|]|]; cbv beta iota; try exact Rest.
  cbv zeta. rewrite run_print_exit. cbv beta iota.
  eapply path_overview; read_effects.
Qed.

(** X6: once the arguments are parsed, every run of [main], in every
    world, goes one of nine ways.  Six end with [main] returning: the
    overview query and one action; the two queries and the fallback; the
    two queries and the primary action that failed; or the two queries,
    the primary action, one sleep of 10 ms and the second window query,
    followed by nothing (1 is returned if it shows no window, 0
    otherwise) or by the fallback.  Three end with an exception that
    nothing catches, raised by the overview query, the first window
    query or the second one; an action that raises such an exception
    ends the run as well.  So a run issues at most three queries and two
    actions, sleeps at most once, and retries nothing. *)
Theorem main_follows_a_path (W : World) (float_repr : spec_float -> pystr)
        (args : Args) (s0 : wstate W) :
  main_path W args (run W (main float_repr args) s0).
Proof. apply main_paths. Qed.

Lemma exit_code_of_value (W : World)
      (R : outcome Z * list entry * wstate W) (o : outcome Z) :
  value_of R = o ->
  exit_code R = match o with Returned code => code | Traceback => 1 end.
Proof. intros <-. reflexivity. Qed.

Lemma last_action_decides (W : World)
      (R : outcome Z * list entry * wstate W) (action : pystr)
      (r : proc_result) :
  value_of R = ends_with r ->
  (went_well (action_entry action r)
   /\ value_of R = Returned 0 /\ exit_code R = 0)
  \/ (~ went_well (action_entry action r)
      /\ (value_of R = Returned 1 \/ value_of R = Traceback)
      /\ exit_code R = 1).
Proof.
  intros X. rewrite (exit_code_of_value W R _ X), X.
  destruct r; simpl; tauto.
Qed.

Lemma last_query_escaped (W : World)
      (R : outcome Z * list entry * wstate W) (query : list pystr)
      (r : proc_result) :
  escapes_query r ->
  value_of R = Traceback ->
  ~ went_well (Ran query true r)
  /\ (value_of R = Returned 1 \/ value_of R = Traceback)
  /\ exit_code R = 1.
Proof.
  intros Q X. rewrite (exit_code_of_value W R _ X), X. split; [|auto].
  intros H. exact (has_windows_not_escapes r H Q).
Qed.

(** X7: once the arguments are parsed, the script exits with status 0
    or 1, and the last effect of the run decides which.  When that
    effect went well (an action that completed, or a window query that
    showed at least one window) [main] returns 0; otherwise the status
    is 1, because [main] returns 1 or because an exception that nothing
    catches ends the run with a traceback. *)
Theorem exit_code_follows_last_effect
        (W : World) (float_repr : spec_float -> pystr) (args : Args)
        (s0 : wstate W) :
  let R := run W (main float_repr args) s0 in
  exists earlier last,
    effects (record R) = earlier ++ [last]
    /\ ((went_well last /\ value_of R = Returned 0 /\ exit_code R = 0)
        \/ (~ went_well last
            /\ (value_of R = Returned 1 \/ value_of R = Traceback)
            /\ exit_code R = 1)).
Proof.
  cbv zeta.
  destruct (main_paths W float_repr args s0)
    as [r0 E Q X|r0 ra E X|r0 r1 E Q X|r0 r1 rf E X|r0 r1 rp E P X
        |r0 r1 r3 out E N X|r0 r1 r3 out E Q X|r0 r1 r3 out E N X
        |r0 r1 r3 rf out E N X];
    rewrite E.
  - exists [], (Ran overview_query true r0). split; [reflexivity|].
    right. apply last_query_escaped; assumption.
  - exists [Ran overview_query true r0]. eexists. split; [reflexivity|].
    apply last_action_decides, X.
  - exists [Ran overview_query true r0], (Ran windows_query true r1).
    split; [reflexivity|]. right. apply last_query_escaped; assumption.
  - exists [Ran overview_query true r0; Ran windows_query true r1].
    eexists. split; [reflexivity|]. apply last_action_decides, X.
  - exists [Ran overview_query true r0; Ran windows_query true r1].
    eexists. split; [reflexivity|]. apply last_action_decides, X.
  - eexists [_; _; _; _], (Ran windows_query true r3).
    split; [reflexivity|]. right.
    rewrite (exit_code_of_value W _ _ X), X. split; [|auto].
    intros H. exact (has_windows_not_no_windows r3 H N).
  - eexists [_; _; _; _], (Ran windows_query true r3).
    split; [reflexivity|]. right. apply last_query_escaped; assumption.
  - eexists [_; _; _; _], (Ran windows_query true r3).
    split; [reflexivity|]. left.
    rewrite (exit_code_of_value W _ _ X), X. auto.
  - eexists [_; _; _; _; _]. eexists. split; [reflexivity|].
    apply last_action_decides, X.
Qed.

Lemma in_removelast_of_split {A : Type} (l pre post : list A) (e : A) :
  l = pre ++ e :: post -> post <> [] -> In e (removelast l).
Proof.
  intros -> H. rewrite removelast_app by discriminate.
  apply in_or_app. right. destruct post; [congruence|]. left. reflexivity.
Qed.

(** X8: [main] stops at the first action that cannot be run: in the
    effects of a run nothing follows a failed action, and the exit code
    is then 1. *)
Theorem nothing_follows_a_failed_action
        (W : World) (float_repr : spec_float -> pystr) (args : Args)
        (s0 : wstate W) (earlier later : list entry) (e : entry) :
  effects (record (run W (main float_repr args) s0)) = earlier ++ e :: later ->
  failed_action e = true ->
  later = [] /\ exit_code (run W (main float_repr args) s0) = 1.
Proof.
  intros E F.
  assert (L : later = []).
  { destruct later as [|x later]; [reflexivity|]. exfalso.
    assert (H : In e (removelast
                        (effects (record (run W (main float_repr args) s0)))))
      by (apply (in_removelast_of_split _ _ _ _ E); discriminate).
    destruct (main_paths W float_repr args s0)
      as [r0 E' Q X|r0 ra E' X|r0 r1 E' Q X|r0 r1 rf E' X|r0 r1 rp E' P X
          |r0 r1 r3 out E' N X|r0 r1 r3 out E' Q X|r0 r1 r3 out E' N X
          |r0 r1 r3 rf out E' N X];
      rewrite E' in H; simpl in H;
      repeat (destruct H as [<- | H]; [discriminate F|]); exact H. }
  split; [exact L|]. subst later.
  destruct (main_paths W float_repr args s0)
    as [r0 E' Q X|r0 ra E' X|r0 r1 E' Q X|r0 r1 rf E' X|r0 r1 rp E' P X
        |r0 r1 r3 out E' N X|r0 r1 r3 out E' Q X|r0 r1 r3 out E' N X
        |r0 r1 r3 rf out E' N X];
    rewrite E' in E; rewrite (exit_code_of_value W _ _ X);
    repeat (destruct earlier as [|? earlier];
            [try discriminate E | try discriminate E;
             injection E as <- E]);
    try discriminate E;
    try (injection E as <-; try discriminate F;
         match goal with
         | |- match ends_with ?r with _ => _ end = 1 =>
             destruct r; [reflexivity | discriminate F | discriminate F]
         | _ => reflexivity
         end);
    try (destruct earlier; discriminate E).
Qed.

(** ** Steps 3 and 4: no focused window, floating window *)

Lemma main_fallback_only
      (W : World) (float_repr : spec_float -> pystr) (args : Args)
      (s0 s1 s2 : wstate W) (open : option bool) (t0 t1 : list entry)
      (windows_before : list Window) :
  run W _overview_is_open s0 = (Returned open, t0, s1) ->
  open <> Some true ->
  run W _collect_windows s1 = (Returned windows_before, t1, s2) ->
  (_focused_window windows_before = None
   \/ exists w, _focused_window windows_before = Some w
                /\ truthy (dict_get (u "is_floating") w) = true) ->
  effects (record (run W (main float_repr args) s0))
  = [Ran overview_query true (fst (answer W overview_query true s0));
     Ran windows_query true (fst (answer W windows_query true s1));
     action_entry (fallback_action args)
       (fst (answer W [u "niri"; u "msg"; u "action"; fallback_action args]
                    false s2))]
  /\ value_of (run W (main float_repr args) s0)
     = ends_with (fst (answer W [u "niri"; u "msg"; u "action";
                                fallback_action args] false s2)).
Proof.
  intros E0 N E1 H. unfold main. rewrite run_bind, E0.
  rewrite (overview_is_open_trace W s0 s1 _ t0 E0).
  assert (O : forall (X : Type) (a b : X),
             match open with Some true => a | _ => b end = b).
  { intros X a b. destruct open as [[|]|]; congruence. }
  cbv beta iota. rewrite O. rewrite run_bind, E1.
  destruct (collect_windows_reading W s1 s2 _ t1 E1) as (-> & _ & _).
  cbv beta iota.
  destruct windows_before as [|w0 ws].
  { rewrite run_print_exit. cbv beta iota. split; read_effects. }
  destruct H as [H | (w & H & Hf)]; rewrite H.
  - rewrite run_print_exit. cbv beta iota. split; read_effects.
  - destruct w as [|kv w]; [discriminate Hf|]. rewrite Hf.
    rewrite run_print_exit. cbv beta iota. split; read_effects.
Qed.

(** X9: when the overview is not open and no window of the before set
    has a truthy focus flag, [main] runs the fallback action and nothing
    else after the two queries, and returns 0 or 1 as that action
    completes or fails; the primary action is not run. *)
Theorem no_focused_window_runs_fallback
        (W : World) (float_repr : spec_float -> pystr) (args : Args)
        (s0 s1 s2 s3 : wstate W) (open : option bool)
        (t0 t1 t2 : list entry) (windows_before : list Window) (ok : bool) :
  run W _overview_is_open s0 = (Returned open, t0, s1) ->
  open <> Some true ->
  run W _collect_windows s1 = (Returned windows_before, t1, s2) ->
  Forall (fun w => truthy (dict_get (u "is_focused") w) = false)
         windows_before ->
  run W (_run_action (fallback_action args)) s2 = (Returned ok, t2, s3) ->
  actions (record (run W (main float_repr args) s0)) = [fallback_action args]
  /\ queries (record (run W (main float_repr args) s0))
     = [overview_query; windows_query]
  /\ exit_code (run W (main float_repr args) s0) = (if ok then 0 else 1).
Proof.
  intros E0 N E1 H Ef.
  assert (Hn : _focused_window windows_before = None).
  { clear E1. unfold _focused_window.
    induction H as [|w l Hw Hl IH]; simpl; [reflexivity|].
    rewrite Hw. exact IH. }
  destruct (main_fallback_only W float_repr args s0 s1 s2 open t0 t1
              windows_before E0 N E1 (or_introl Hn)) as [E X].
  rewrite run_action_reading in Ef. injection Ef as Eok _ _.
  rewrite (exit_code_of_value W _ _ X), (actions_of_effects _ _ E),
    (queries_of_effects _ _ E).
  repeat split; try reflexivity.
  destruct (fst (answer W _ false s2)); try discriminate Eok;
    injection Eok as <-; reflexivity.
Qed.

(** X10: when the overview is not open and the focused window of the
    before set has a truthy [is_floating], [main] runs the fallback
    action and nothing else after the two queries, and returns 0 or 1 as
    that action completes or fails; the primary action is not run. *)
Theorem floating_window_runs_fallback
        (W : World) (float_repr : spec_float -> pystr) (args : Args)
        (s0 s1 s2 s3 : wstate W) (open : option bool)
        (t0 t1 t2 : list entry) (windows_before : list Window)
        (focused_before : Window) (ok : bool) :
  run W _overview_is_open s0 = (Returned open, t0, s1) ->
  open <> Some true ->
  run W _collect_windows s1 = (Returned windows_before, t1, s2) ->
  _focused_window windows_before = Some focused_before ->
  truthy (dict_get (u "is_floating") focused_before) = true ->
  run W (_run_action (fallback_action args)) s2 = (Returned ok, t2, s3) ->
  actions (record (run W (main float_repr args) s0)) = [fallback_action args]
  /\ queries (record (run W (main float_repr args) s0))
     = [overview_query; windows_query]
  /\ exit_code (run W (main float_repr args) s0) = (if ok then 0 else 1).
Proof.
  intros E0 N E1 Hw Hf Ef.
  destruct (main_fallback_only W float_repr args s0 s1 s2 open t0 t1
              windows_before E0 N E1
              (or_intror (ex_intro _ focused_before (conj Hw Hf)))) as [E X].
  rewrite run_action_reading in Ef. injection Ef as Eok _ _.
  rewrite (exit_code_of_value W _ _ X), (actions_of_effects _ _ E),
    (queries_of_effects _ _ E).
  repeat split; try reflexivity.
  destruct (fst (answer W _ false s2)); try discriminate Eok;
    injection Eok as <-; reflexivity.
Qed.

(** ** What the arguments can change *)

Lemma same_effects_refl {A : Type} (p : io A) : same_effects p p.
Proof.
  induction p as [a| |argv c k IH|ms k IH|m k IH].
  - constructor.
  - constructor.
  - constructor. exact IH.
  - constructor. exact IH.
  - apply same_print_left, same_print_right, IH.
Qed.

Lemma same_effects_bind {A B : Type} (p q : io A) (f g : A -> io B) :
  same_effects p q ->
  (forall a, same_effects (f a) (g a)) ->
  same_effects (io_bind p f) (io_bind q g).
Proof.
  intros H Hfg.
  induction H as [a| |argv c k k' Hk IH|ms k k' Hk IH|m k p Hk IH
                   |m p k Hk IH];
    cbn [io_bind].
  - apply Hfg.
  - apply same_uncaught.
  - apply same_run. exact IH.
  - apply same_sleep. exact IH.
  - apply same_print_left. exact IH.
  - apply same_print_right. exact IH.
Qed.

Lemma same_effects_run {A : Type} (W : World) (p q : io A) :
  same_effects p q ->
  forall s,
    value_of (run W p s) = value_of (run W q s)
    /\ effects (record_of (run W p s)) = effects (record_of (run W q s))
    /\ state_of (run W p s) = state_of (run W q s).
Proof.
  unfold value_of, record_of, state_of.
  induction 1 as [a| |argv c k k' Hk IH|ms k k' Hk IH|m k p Hk IH
                   |m p k Hk IH];
    intros s; cbn [run].
  - auto.
  - auto.
  - destruct (answer W argv c s) as [r s1]. specialize (IH r s1).
    destruct (run W (k r) s1) as [[a t] s2].
    destruct (run W (k' r) s1) as [[a' t'] s2']. cbn [fst snd effects] in *.
    destruct IH as (-> & -> & ->). auto.
  - specialize (IH (elapse W ms s)).
    destruct (run W k (elapse W ms s)) as [[a t] s2].
    destruct (run W k' (elapse W ms s)) as [[a' t'] s2'].
    cbn [fst snd effects] in *. destruct IH as (-> & -> & ->). auto.
  - specialize (IH s). destruct (run W k s) as [[a t] s2].
    cbn [fst snd effects] in *. exact IH.
  - specialize (IH s). destruct (run W k s) as [[a t] s2].
    cbn [fst snd effects] in *. exact IH.
Qed.

Lemma same_effects_debug_print (args args' : Args) (m m' : debug_msg) :
  same_effects (debug_print args m) (debug_print args' m').
Proof.
  unfold debug_print, print_stderr.
  destruct (debug args), (debug args');
    [apply same_print_left, same_print_right | apply same_print_left
     | apply same_print_right | ]; apply same_ret.
Qed.

Lemma same_effects_main (float_repr : spec_float -> pystr)
      (d d' : Direction) (primary fallback : pystr) (overview : option pystr)
      (dbg dbg' : bool) :
  same_effects
    (main float_repr
       {| direction := d; primary_action := primary;
          fallback_action := fallback; overview_action := overview;
          debug := dbg |})
    (main float_repr
       {| direction := d'; primary_action := primary;
          fallback_action := fallback; overview_action := overview;
          debug := dbg' |}).
Proof.
  unfold main.
  cbn [bind Monad_io direction primary_action fallback_action
       overview_action].
  apply same_effects_bind; [apply same_effects_refl|].
  assert (Rest : forall args args' : Args,
             same_effects
               (io_bind _collect_windows
                  (fun windows_before =>
                     match windows_before with
                     | [] =>
                         io_bind (debug_print args MsgNoWindows)
                           (fun _ => exit_with_action fallback)
                     | _ =>
                     match _focused_window windows_before with
                     | None | Some [] =>
                         io_bind (debug_print args MsgNoFocused)
                           (fun _ => exit_with_action fallback)
                     | Some focused_before =>
                     if truthy (dict_get (u "is_floating") focused_before) then
                         io_bind (debug_print args MsgFloating)
                           (fun _ => exit_with_action fallback)
                     else
                     let focused_identity := _window_identity focused_before in
                     let before_snapshot :=
                       _window_snapshot float_repr focused_before in
                     let primary_is_focus := _is_focus_action primary in
                     io_bind
                       (debug_print args
                          (MsgRunPrimary primary (direction args)))
                       (fun _ =>
                     io_bind (_run_action primary) (fun ok =>
                     if negb ok then
                         io_bind (debug_print args MsgPrimaryFailed)
                           (fun _ => Ret 1)
                     else
                     io_bind (time_sleep 10) (fun _ =>
                     io_bind _collect_windows (fun windows_after =>
                     match windows_after with
                     | [] =>
                         io_bind (debug_print args MsgRequeryFailed)
                           (fun _ => Ret 1)
                     | _ =>
                     io_bind
                       (if primary_is_focus
                        then compare_focus args windows_after focused_identity
                        else compare_move float_repr args windows_after
                                          focused_identity before_snapshot)
                       (fun fallback_needed =>
                     if fallback_needed : bool then
                         io_bind (debug_print args (MsgRunFallback fallback))
                           (fun _ => exit_with_action fallback)
                     else Ret 0)
                     end))))
                     end end))
               (io_bind _collect_windows
                  (fun windows_before =>
                     match windows_before with
                     | [] =>
                         io_bind (debug_print args' MsgNoWindows)
                           (fun _ => exit_with_action fallback)
                     | _ =>
                     match _focused_window windows_before with
                     | None | Some [] =>
                         io_bind (debug_print args' MsgNoFocused)
                           (fun _ => exit_with_action fallback)
                     | Some focused_before =>
                     if truthy (dict_get (u "is_floating") focused_before) then
                         io_bind (debug_print args' MsgFloating)
                           (fun _ => exit_with_action fallback)
                     else
                     let focused_identity := _window_identity focused_before in
                     let before_snapshot :=
                       _window_snapshot float_repr focused_before in
                     let primary_is_focus := _is_focus_action primary in
                     io_bind
                       (debug_print args'
                          (MsgRunPrimary primary (direction args')))
                       (fun _ =>
                     io_bind (_run_action primary) (fun ok =>
                     if negb ok then
                         io_bind (debug_print args' MsgPrimaryFailed)
                           (fun _ => Ret 1)
                     else
                     io_bind (time_sleep 10) (fun _ =>
                     io_bind _collect_windows (fun windows_after =>
                     match windows_after with
                     | [] =>
                         io_bind (debug_print args' MsgRequeryFailed)
                           (fun _ => Ret 1)
                     | _ =>
                     io_bind
                       (if primary_is_focus
                        then compare_focus args' windows_after focused_identity
                        else compare_move float_repr args' windows_after
                                          focused_identity before_snapshot)
                       (fun fallback_needed =>
                     if fallback_needed : bool then
                         io_bind (debug_print args' (MsgRunFallback fallback))
                           (fun _ => exit_with_action fallback)
                     else Ret 0)
                     end))))
                     end end))).
  { intros args args'.
    assert (P : forall (A : Type) m m' (p : io A),
               same_effects (io_bind (debug_print args m) (fun _ => p))
                            (io_bind (debug_print args' m') (fun _ => p))).
    { intros A m m' p. apply same_effects_bind;
        [apply same_effects_debug_print | intros _; apply same_effects_refl]. }
    apply same_effects_bind; [apply same_effects_refl|].
    intros [|w0 ws]; [apply P|].
    destruct (_focused_window (w0 :: ws)) as [[|kv fb]|]; try apply P.
    destruct (truthy (dict_get (u "is_floating") (kv :: fb))); [apply P|].
    cbv zeta.
    apply same_effects_bind; [apply same_effects_debug_print|]. intros _.
    apply same_effects_bind; [apply same_effects_refl|].
    intros [|]; cbn [negb]; [|apply P].
    apply same_effects_bind; [apply same_effects_refl|]. intros _.
    apply same_effects_bind; [apply same_effects_refl|].
    intros [|w1 wa]; [apply P|].
    apply same_effects_bind.
    - destruct (_is_focus_action primary).
      + unfold compare_focus. cbv zeta. cbn [bind Monad_io ret].
        apply same_effects_bind; [apply same_effects_debug_print|].
        intros _. apply same_effects_refl.
      + unfold compare_move. cbv zeta. cbn [bind Monad_io ret].
        apply same_effects_bind; [apply same_effects_debug_print|].
        intros _. apply same_effects_refl.
    - intros [|]; [apply P | apply same_effects_refl]. }
  intros [[|]|].
  - cbv zeta. apply same_effects_bind;
      [apply same_effects_debug_print | intros _; apply same_effects_refl].
  - apply (Rest (Build_Args d primary fallback overview dbg)
                 (Build_Args d' primary fallback overview dbg')).
  - apply (Rest (Build_Args d primary fallback overview dbg)
                 (Build_Args d' primary fallback overview dbg')).
Qed.

(** X11: [--direction] and [--debug] never change what [main] does: for
    the same three actions, two runs from the same state of the world
    return the same exit code, have the same effects once the
    diagnostics are left out, and leave the world in the same state. *)
Theorem direction_and_debug_do_not_decide
        (W : World) (float_repr : spec_float -> pystr)
        (d d' : Direction) (primary fallback : pystr)
        (overview : option pystr) (dbg dbg' : bool) (s0 : wstate W) :
  let args :=
    {| direction := d; primary_action := primary;
       fallback_action := fallback; overview_action := overview;
       debug := dbg |} in
  let args' :=
    {| direction := d'; primary_action := primary;
       fallback_action := fallback; overview_action := overview;
       debug := dbg' |} in
  exit_code (run W (main float_repr args) s0)
  = exit_code (run W (main float_repr args') s0)
  /\ effects (record (run W (main float_repr args) s0))
     = effects (record (run W (main float_repr args') s0))
  /\ state_of (run W (main float_repr args) s0)
     = state_of (run W (main float_repr args') s0).
Proof.
  cbv zeta.
  destruct (same_effects_run W _ _
              (same_effects_main float_repr d d' primary fallback overview
                                 dbg dbg') s0) as (V & E & S).
  split; [|split; [exact E | exact S]].
  rewrite (exit_code_of_value W _ _ V). reflexivity.
Qed.

(** X12: the overview action is looked at only when the overview is
    open: when it is not, two runs that differ in [--overview-action]
    alone are the same run. *)
Theorem overview_action_unused_when_closed
        (W : World) (float_repr : spec_float -> pystr)
        (d : Direction) (primary fallback : pystr)
        (overview overview' : option pystr) (dbg : bool)
        (s0 s1 : wstate W) (open : option bool) (t0 : list entry) :
  run W _overview_is_open s0 = (Returned open, t0, s1) ->
  open <> Some true ->
  run W (main float_repr
           {| direction := d; primary_action := primary;
              fallback_action := fallback; overview_action := overview;
              debug := dbg |}) s0
  = run W (main float_repr
             {| direction := d; primary_action := primary;
                fallback_action := fallback; overview_action := overview';
                debug := dbg |}) s0.
Proof.
  intros E N. unfold main. rewrite !run_bind, E.
  destruct open as [[|]|]; [congruence | reflexivity | reflexivity].
Qed.

(** ** A primary action that changes nothing *)

Section NothingChanged.

Variable W : World.
Variable float_repr : spec_float -> pystr.
Variable args : Args.
Variables s0 s1 s2 s3 s4 : wstate W.
Variable overview_open : option bool.
Variables t0 t1 t2 t3 : list entry.
Variable windows : list Window.
Variable focused : Window.

Hypothesis overview_answer :
  run W _overview_is_open s0 = (Returned overview_open, t0, s1).
Hypothesis overview_not_open : overview_open <> Some true.
Hypothesis before_answer : run W _collect_windows s1 = (Returned windows, t1, s2).
Hypothesis before_focused : _focused_window windows = Some focused.
Hypothesis before_tiled :
  truthy (dict_get (u "is_floating") focused) = false.
Hypothesis primary_ok :
  run W (_run_action (primary_action args)) s2 = (Returned true, t2, s3).
Hypothesis after_same :
  run W _collect_windows (elapse W 10 s3) = (Returned windows, t3, s4).
Hypothesis focused_well_formed : well_formed (JDict focused).

(** X13: when a focus-type primary action succeeds and the second
    window query reports the very windows of the first, the fallback
    action is run. *)
Theorem unchanged_focus_runs_fallback :
  _is_focus_action (primary_action args) = true ->
  actions (record (run W (main float_repr args) s0))
  = [primary_action args; fallback_action args].
Proof.
  intros F.
  destruct (focused_window_nonempty _ _ before_focused) as [NE1 NE2].
  destruct (run_compare_focus W args windows (_window_identity focused) s4)
    as (tc & Ac & _ & Ec).
  rewrite before_focused in Ec.
  assert (N : match focused with
              | [] => true
              | _ :: _ =>
                  identity_eqb (_window_identity focused)
                               (_window_identity focused)
              end = true).
  { destruct focused; [reflexivity|].
    apply window_identity_refl, focused_well_formed. }
  rewrite N in Ec.
  pose proof (main_after_decision W float_repr args s0 s1 s2 overview_open
                t0 t1 windows focused overview_answer overview_not_open
                before_answer before_focused before_tiled s3 t2 primary_ok
                s4 t3 windows after_same NE2 true tc Ac) as D.
  rewrite F in D. apply (proj1 (D Ec)). reflexivity.
Qed.

(** X14: when a move-type primary action succeeds and the second window
    query reports the very windows of the first, the fallback action is
    run, provided no window listed before the focused one has its
    identity. *)
Theorem unchanged_move_runs_fallback (earlier later : list Window) :
  _is_focus_action (primary_action args) = false ->
  windows = earlier ++ focused :: later ->
  Forall (fun w => identity_eqb (_window_identity w)
                                (_window_identity focused) = false)
         earlier ->
  actions (record (run W (main float_repr args) s0))
  = [primary_action args; fallback_action args].
Proof.
  intros F Hw He.
  destruct (focused_window_nonempty _ _ before_focused) as [NE1 NE2].
  destruct (run_compare_move W float_repr args windows
              (_window_identity focused)
              (_window_snapshot float_repr focused) s4)
    as (tc & Ac & _ & Ec).
  rewrite (find_window_by_identity_first windows (_window_identity focused)
             earlier focused later Hw He
             (window_identity_refl focused focused_well_formed)) in Ec.
  rewrite pystr_eqb_refl in Ec.
  pose proof (main_after_decision W float_repr args s0 s1 s2 overview_open
                t0 t1 windows focused overview_answer overview_not_open
                before_answer before_focused before_tiled s3 t2 primary_ok
                s4 t3 windows after_same NE2 true tc Ac) as D.
  rewrite F in D. apply (proj1 (D Ec)). reflexivity.
Qed.

End NothingChanged.

(** ** What the snapshot holds *)

Lemma lookup_app {V : Type} (k : pystr) (d e : list (pystr * V)) :
  lookup k (d ++ e) =
    match lookup k d with
    | Some v => Some v
    | None => lookup k e
    end.
Proof.
  induction d as [|[k' v'] d IH]; simpl; [reflexivity|].
  destruct (PyStr.eqb k' k); [reflexivity | exact IH].
Qed.

Lemma lookup_column_fields (k : pystr) (win : Window) :
  lookup k (filter is_column_field win) =
    if contains k (u "column") then lookup k win else None.
Proof.
  induction win as [|[k' v'] win IH]; simpl.
  - destruct (contains k (u "column")); reflexivity.
  - unfold is_column_field at 1. simpl.
    destruct (PyStr.eqb k' k) eqn:E.
    + apply pystr_eqb_eq in E. subst k'.
      destruct (contains k (u "column")); simpl.
      * rewrite pystr_eqb_refl. reflexivity.
      * exact IH.
    + destruct (contains k' (u "column")); simpl; rewrite ?E; exact IH.
Qed.

(** X15: the dict that [_window_snapshot] serializes holds, for a window
    with distinct keys, exactly this: [workspace_id] and [layout], always
    present, with the value of the window or [None] when the window has
    none; every field of the window whose name contains [column], with
    its value; and no other key. *)
Theorem snapshot_dict_holds (win : Window) (key : pystr) :
  keys_distinct win ->
  keys_distinct (snapshot_dict win)
  /\ lookup key (snapshot_dict win) =
       if PyStr.eqb key (u "workspace_id") || PyStr.eqb key (u "layout")
       then Some (dict_get key win)
       else if contains key (u "column") then lookup key win
       else None.
Proof.
  intros ND. rewrite (snapshot_dict_fields win ND). split.
  - unfold keys_distinct. rewrite map_app.
    apply (snapshot_keys_distinct win ND).
  - cbn [app lookup]. rewrite lookup_column_fields.
    destruct (PyStr.eqb (u "workspace_id") key) eqn:E1.
    { apply pystr_eqb_eq in E1. subst key. reflexivity. }
    destruct (PyStr.eqb (u "layout") key) eqn:E2.
    { apply pystr_eqb_eq in E2. subst key. reflexivity. }
    assert (F1 : PyStr.eqb key (u "workspace_id") = false).
    { apply pystr_eqb_neq. apply pystr_eqb_neq in E1. congruence. }
    assert (F2 : PyStr.eqb key (u "layout") = false).
    { apply pystr_eqb_neq. apply pystr_eqb_neq in E2. congruence. }
    rewrite F1, F2. reflexivity.
Qed.

(** ** Further concrete runs *)

(** X1 at work: the window query prints something that is not JSON,
    and something that cannot be decoded. *)
Lemma collect_windows_not_json_run :
  value_of (run scripted _collect_windows [ProcCompleted NotJson])
  = Returned []
  /\ value_of (run scripted _collect_windows [ProcEscaped]) = Traceback.
Proof.
  split.
  - apply (proj2 (proj1 (proj2 (proj2 (collect_windows_empty_iff
                                         scripted [ProcCompleted NotJson]))))).
    apply malformed_json.
  - apply (proj2 (proj1 (proj2 (collect_windows_empty_iff
                                  scripted [ProcEscaped])))).
    left. reflexivity.
Defined.

(** X2 at work: the list sits under [windows] beside another key and
    holds a number between two windows. *)
Lemma collect_windows_wrapped_run :
  let wrapper :=
    [(u "total", JInt 2);
     (u "windows", JList [JDict (sample_window 7 true 1); JInt 3;
                          JDict (sample_window 8 false 2)])] in
  value_of (run scripted _collect_windows
                [ProcCompleted (JsonText (JDict wrapper))])
  = Returned [sample_window 7 true 1; sample_window 8 false 2].
Proof.
  cbv zeta.
  apply (proj1 (proj2 (collect_windows_wrapped scripted
           [ProcCompleted (JsonText (JDict
              [(u "total", JInt 2);
               (u "windows", JList [JDict (sample_window 7 true 1); JInt 3;
                                    JDict (sample_window 8 false 2)])]))]
           [(u "total", JInt 2);
            (u "windows", JList [JDict (sample_window 7 true 1); JInt 3;
                                 JDict (sample_window 8 false 2)])]
           [JDict (sample_window 7 true 1); JInt 3;
            JDict (sample_window 8 false 2)])));
    reflexivity.
Defined.

(** X3 at work: the overview is reported open; the answer holds an
    integer beyond the digit limit of [json.loads]. *)
Lemma overview_is_open_run :
  value_of (run scripted _overview_is_open [overview_reply true])
  = Returned (Some true)
  /\ value_of (run scripted _overview_is_open [ProcCompleted JsonRaises])
     = Traceback.
Proof.
  split.
  - apply (proj2 (proj1 (proj2 (proj2 (overview_is_open_reading
                                         scripted [overview_reply true])))
                        true)).
    exists [(u "is_open", JBool true)]. split; reflexivity.
  - apply (proj2 (proj1 (proj2 (overview_is_open_reading
                                  scripted [ProcCompleted JsonRaises])))).
    right. reflexivity.
Defined.

(** X4 at work: window 7 is found behind window 8. *)
Lemma find_window_by_identity_run :
  _find_window_by_identity
    [sample_window 8 true 2; sample_window_reordered 7 false 1]
    [(u "id", JInt 7)]
  = Some (sample_window_reordered 7 false 1).
Proof.
  apply (proj2 (proj1 (find_window_by_identity_first_match
                         [sample_window 8 true 2;
                          sample_window_reordered 7 false 1]
                         [(u "id", JInt 7)])
                      (sample_window_reordered 7 false 1))).
  exists [sample_window 8 true 2], [].
  split; [reflexivity|]. split; [|reflexivity].
  repeat constructor.
Defined.

Ltac identified_by_id :=
  exists [u "persistent_id"; u "window_id"],
         [u "surface_id"; u "toplevel_id"; u "wayland_id"];
  split; [reflexivity|]; split;
  [ repeat constructor; intros [[? H] | [[? H] | [? H]]]; discriminate
  | right; left; eexists; reflexivity ].

(** X5 at work: two windows with the same [id] match although their
    fields are held in another order and their column differs. *)
Lemma identity_match_run :
  identity_eqb (_window_identity (sample_window 7 true 1))
               (_window_identity (sample_window_reordered 7 false 2))
  = true.
Proof.
  rewrite (proj1 (identity_match_by_field
                    (sample_window 7 true 1)
                    (sample_window_reordered 7 false 2) (u "id") (u "id")
                    ltac:(identified_by_id)) ltac:(identified_by_id)).
  reflexivity.
Defined.

(** X8 at work: the primary action cannot be run and is the last effect. *)
Lemma failed_primary_is_last_run :
  let before := [sample_window 7 true 1; sample_window 8 false 2] in
  let script := [overview_reply false; windows_reply before; ProcRaised] in
  exit_code (run scripted (main sample_float_repr focus_args) script) = 1.
Proof.
  cbv zeta.
  apply (proj2 (nothing_follows_a_failed_action
                  scripted sample_float_repr focus_args
                  [overview_reply false;
                   windows_reply [sample_window 7 true 1;
                                  sample_window 8 false 2];
                   ProcRaised]
                  [Ran overview_query true (overview_reply false);
                   Ran windows_query true
                       (windows_reply [sample_window 7 true 1;
                                       sample_window 8 false 2])]
                  []
                  (action_entry (u "focus-column-right") ProcRaised)
                  eq_refl eq_refl)).
Defined.

(** X9 at work: two windows and none is focused. *)
Lemma no_focused_window_run :
  let before := [sample_window 7 false 1; sample_window 8 false 2] in
  let script := [overview_reply false; windows_reply before; action_done] in
  actions (record (run scripted (main sample_float_repr focus_args) script))
  = [u "focus-workspace-down"]
  /\ queries (record (run scripted (main sample_float_repr focus_args) script))
     = [overview_query; windows_query]
  /\ exit_code (run scripted (main sample_float_repr focus_args) script) = 0.
Proof.
  cbv zeta.
  eapply (no_focused_window_runs_fallback scripted sample_float_repr
            focus_args _ _ _ _ _ _ _ _ _ true).
  - reflexivity.
  - discriminate.
  - reflexivity.
  - repeat constructor.
  - reflexivity.
Defined.

(** X10 at work: the focused window is floating and the fallback fails. *)
Lemma floating_window_run :
  let script :=
    [overview_reply false; windows_reply [sample_floating_window];
     ProcRaised] in
  actions (record (run scripted (main sample_float_repr move_args) script))
  = [u "move-window-to-workspace-up"]
  /\ queries (record (run scripted (main sample_float_repr move_args) script))
     = [overview_query; windows_query]
  /\ exit_code (run scripted (main sample_float_repr move_args) script) = 1.
Proof.
  cbv zeta.
  eapply (floating_window_runs_fallback scripted sample_float_repr
            move_args _ _ _ _ _ _ _ _ _ _ false).
  - reflexivity.
  - discriminate.
  - reflexivity.
  - reflexivity.
  - reflexivity.
  - reflexivity.
Defined.

(** X12 at work: the overview is closed; an overview action is given or
    not. *)
Lemma overview_action_unused_run :
  let script := [overview_reply false; windows_reply []; action_done] in
  run scripted
      (main sample_float_repr
         {| direction := Left; primary_action := u "focus-column-left";
            fallback_action := u "focus-workspace-up";
            overview_action := Some (u "move-workspace-up");
            debug := true |}) script
  = run scripted
        (main sample_float_repr
           {| direction := Left; primary_action := u "focus-column-left";
              fallback_action := u "focus-workspace-up";
              overview_action := None;
              debug := true |}) script.
Proof.
  cbv zeta.
  eapply (overview_action_unused_when_closed scripted sample_float_repr).
  - reflexivity.
  - discriminate.
Defined.

Ltac sample_window_well_formed :=
  split; [distinct_keys|]; simpl; repeat split; distinct_keys.

(** X13 at work: [focus-column-right] leaves the windows as they were. *)
Lemma unchanged_focus_run :
  let before := [sample_window 7 true 1; sample_window 8 false 2] in
  let script :=
    [overview_reply false; windows_reply before; action_done;
     windows_reply before; action_done] in
  actions (record (run scripted (main sample_float_repr focus_args) script))
  = [u "focus-column-right"; u "focus-workspace-down"].
Proof.
  cbv zeta.
  eapply (unchanged_focus_runs_fallback scripted sample_float_repr focus_args).
  - reflexivity.
  - discriminate.
  - reflexivity.
  - reflexivity.
  - reflexivity.
  - reflexivity.
  - reflexivity.
  - sample_window_well_formed.
  - reflexivity.
Defined.

(** X14 at work: [move-window-up] leaves the windows as they were; the
    focused window is the second of the list. *)
Lemma unchanged_move_run :
  let before := [sample_window 8 false 2; sample_window 7 true 1] in
  let script :=
    [overview_reply false; windows_reply before; action_done;
     windows_reply before; action_done] in
  actions (record (run scripted (main sample_float_repr move_args) script))
  = [u "move-window-up"; u "move-window-to-workspace-up"].
Proof.
  cbv zeta.
  eapply unchanged_move_runs_fallback
    with (focused := sample_window 7 true 1)
         (earlier := [sample_window 8 false 2]) (later := []).
  - reflexivity.
  - discriminate.
  - reflexivity.
  - reflexivity.
  - reflexivity.
  - reflexivity.
  - reflexivity.
  - sample_window_well_formed.
  - reflexivity.
  - reflexivity.
  - repeat constructor.
Defined.

(** X15 at work: the title of a window is not in its snapshot, its
    column index is. *)
Lemma snapshot_dict_run :
  lookup (u "title") (snapshot_dict (sample_window_reordered 7 true 3)) = None
  /\ lookup (u "column_index")
            (snapshot_dict (sample_window_reordered 7 true 3))
     = Some (JInt 3).
Proof.
  split.
  - rewrite (proj2 (snapshot_dict_holds (sample_window_reordered 7 true 3)
                      (u "title") ltac:(distinct_keys))).
    reflexivity.
  - rewrite (proj2 (snapshot_dict_holds (sample_window_reordered 7 true 3)
                      (u "column_index") ltac:(distinct_keys))).
    reflexivity.
Defined.
